(** * hhh_graph: from collision events to jet-pair graphs

    A shallow embedding of [src/data/hhh_graph.py].  The columnar arrays of
    the source (awkward arrays of shape events x jets) are lists of lists;
    every jagged operation the source calls is written out below on that
    representation.

    Numbers.  Kinematic quantities (pt, eta, phi, b-tag score) are exact
    rationals [Q]: every finite floating-point value is a rational, and the
    comparisons [pt > MIN_JET_PT] and [j0 == j1] are comparisons of values.
    Rounding, overflow and not-a-number are outside this model.  Integer
    columns (jet id, matched-Higgs index, hadron flavour) are [Z].  The
    transcendental functions of numpy and of the vector package are taken as
    parameters, gathered in the record [VectorLib].

    Where a statement turns on what the rationals leave out, it says so: the
    module [Binary64] reads the pt mask and the two pt helpers of the edge
    features on IEEE binary64 values, where a sum can overflow, and a
    statement that needs a jet to compare equal to itself, which a jet with a
    not-a-number coordinate does not, takes it as a hypothesis
    ([self_equal]). *)

From Stdlib Require Import List Bool Arith ZArith QArith Qminmax Lia Lqa Floats.
Import ListNotations.

Set Implicit Arguments.

(** ** Configuration constants (lines 16-19) *)

Definition N_JETS : nat := 10.
Definition MIN_JET_PT : Q := 20.
Definition MIN_JETS : nat := 6.
Definition N_HIGGS : nat := 3.

(** ** Input events

    One row of the [Events] tree read with the flat schema: the branch
    [jet{i}Pt] of an event is [jetPt ev i], and so on for the other
    templates of FEATURE_BRANCHES and LABEL_BRANCHES and for the three
    [genHiggs{i}...] templates. *)

Record Event : Type := mkEvent {
  jetPt : nat -> Q;
  jetEta : nat -> Q;
  jetPhi : nat -> Q;
  jetDeepFlavB : nat -> Q;
  jetJetId : nat -> Z;
  jetHiggsMatchedIndex : nat -> Z;
  jetHadronFlavour : nat -> Z;
  genHiggsPt : nat -> Q;
  genHiggsEta : nat -> Q;
  genHiggsPhi : nat -> Q
}.

(** [get_n_features] (lines 25-26): for each event the values of the branches
    [name.format(i=i)], i = 1 .. n, side by side. *)
Definition get_n_features {A : Type} (name : Event -> nat -> A)
    (events : list Event) (n : nat) : list (list A) :=
  map (fun ev => map (name ev) (seq 1 n)) events.

(** ** The array operations used by the source

    Where the source would raise on arrays of different shapes, the
    operations below stop at the shorter one.  [process] never meets the
    case: all its arrays are computed from one table of events, and the
    lemmas on columns further down carry the common shape through every
    step. *)

Module Ak.

(** Elementwise operations on a jagged array, on two and on three of them. *)
Definition map2d {A B : Type} (f : A -> B) (arr : list (list A)) : list (list B) :=
  map (map f) arr.

Definition zip_with {A B C : Type} (f : A -> B -> C) (xs : list A) (ys : list B) : list C :=
  map (fun p => f (fst p) (snd p)) (combine xs ys).

Definition zip_with2d {A B C : Type} (f : A -> B -> C)
    (xs : list (list A)) (ys : list (list B)) : list (list C) :=
  zip_with (zip_with f) xs ys.

(** [arr[mask]] with a boolean mask of one entry per event: whole events are
    kept or dropped. *)
Definition getitem_mask1 {A : Type} (arr : list A) (mask : list bool) : list A :=
  map fst (filter snd (combine arr mask)).

(** [arr[mask]] with a jagged boolean mask of the shape of [arr]: inside each
    event the entries whose mask is true are kept, in order. *)
Definition getitem_mask2 {A : Type} (arr : list (list A)) (mask : list (list bool))
    : list (list A) :=
  zip_with getitem_mask1 arr mask.

(** [ak.num(arr)]: the number of entries of each event. *)
Definition num {A : Type} (arr : list (list A)) : list nat := map (@length A) arr.

(** [ak.where(cond, x, y)] on jagged arrays of one shape, with [y] either an
    array or a scalar broadcast to every entry. *)
Definition where_scalar {A : Type} (cond : list (list bool)) (x : list (list A)) (y : A)
    : list (list A) :=
  zip_with2d (fun (c : bool) v => if c then v else y) cond x.

(** [ak.zeros_like(arr)]. *)
Definition zeros_like (arr : list (list Q)) : list (list Q) := map2d (fun _ => 0%Q) arr.

(** [ak.ones_like(arr)]. *)
Definition ones_like (arr : list (list Q)) : list (list Q) := map2d (fun _ => 1%Q) arr.

(** [ak.cartesian] of two jagged arrays: per event all pairs, the first
    component varying slowest. *)
Definition cartesian {A B : Type} (xs : list (list A)) (ys : list (list B))
    : list (list (A * B)) :=
  zip_with (@list_prod A B) xs ys.

(** [ak.argcartesian([xs, ys])]: the same on positions instead of values. *)
Definition argcartesian {A B : Type} (xs : list (list A)) (ys : list (list B))
    : list (list (nat * nat)) :=
  zip_with (fun x y => list_prod (seq 0 (length x)) (seq 0 (length y))) xs ys.

(** [ak.unzip] of an array of pairs. *)
Definition unzip {A B : Type} (arr : list (list (A * B)))
    : list (list A) * list (list B) :=
  (map2d fst arr, map2d snd arr).

End Ak.

(** ** Four-vectors

    The record built by [ak.zip(..., with_name="Momentum4D")] on line 40:
    the four coordinates and the extra field [higgs_idx]. *)

Record Momentum4D : Type := mkMomentum4D {
  pt : Q;
  eta : Q;
  phi : Q;
  mass : Q;
  higgs_idx : Z
}.

(** [j0 == j1] on Momentum4D records.  The vector package registers
    [numpy.equal] for its record names; two vectors given in the same
    coordinates compare equal when all four coordinates compare equal.
    [higgs_idx] is no coordinate and takes no part.  On rationals every
    vector compares equal to itself; on floats a vector with a not-a-number
    coordinate does not. *)
Definition momentum4d_equal (j0 j1 : Momentum4D) : bool :=
  Qeq_bool (pt j0) (pt j1) && Qeq_bool (phi j0) (phi j1)
  && Qeq_bool (eta j0) (eta j1) && Qeq_bool (mass j0) (mass j1).

(** [pt > MIN_JET_PT] and the like on rationals. *)
Definition Qlt_bool (x y : Q) : bool := negb (Qle_bool y x).

(** What numpy and vector compute on four-vectors: the natural logarithm,
    the angular separation of two vectors, the sum of two vectors, and the
    squared mass, transverse momentum, pseudorapidity and azimuth of a sum. *)
Record VectorLib : Type := mkVectorLib {
  Vec : Type;
  np_log : Q -> Q;
  deltaR : Momentum4D -> Momentum4D -> Q;
  vadd : Momentum4D -> Momentum4D -> Vec;
  vec_mass2 : Vec -> Q;
  vec_pt : Vec -> Q;
  vec_eta : Vec -> Q;
  vec_phi : Vec -> Q
}.

(** ** The jet columns and the event filter (lines 107-142) *)

Record JetArrays : Type := mkJetArrays {
  a_pt : list (list Q);
  a_eta : list (list Q);
  a_phi : list (list Q);
  a_btag : list (list Q);
  a_jet_id : list (list Z);
  a_higgs_idx : list (list Z);
  a_hadron_flavor : list (list Z)
}.

(** Lines 111-117. *)
Definition load_jets (events : list Event) : JetArrays :=
  {| a_pt := get_n_features jetPt events N_JETS;
     a_eta := get_n_features jetEta events N_JETS;
     a_phi := get_n_features jetPhi events N_JETS;
     a_btag := get_n_features jetDeepFlavB events N_JETS;
     a_jet_id := get_n_features jetJetId events N_JETS;
     a_higgs_idx := get_n_features jetHiggsMatchedIndex events N_JETS;
     a_hadron_flavor := get_n_features jetHadronFlavour events N_JETS |}.

(** Lines 119-127: remove jets below MIN_JET_PT. *)
Definition jet_pt_mask (arr_pt : list (list Q)) : list (list bool) :=
  Ak.map2d (fun p => Qlt_bool MIN_JET_PT p) arr_pt.

Definition remove_low_pt_jets (j : JetArrays) : JetArrays :=
  let mask := jet_pt_mask (a_pt j) in
  {| a_pt := Ak.getitem_mask2 (a_pt j) mask;
     a_eta := Ak.getitem_mask2 (a_eta j) mask;
     a_phi := Ak.getitem_mask2 (a_phi j) mask;
     a_btag := Ak.getitem_mask2 (a_btag j) mask;
     a_jet_id := Ak.getitem_mask2 (a_jet_id j) mask;
     a_higgs_idx := Ak.getitem_mask2 (a_higgs_idx j) mask;
     a_hadron_flavor := Ak.getitem_mask2 (a_hadron_flavor j) mask |}.

(** Lines 129-137: keep events with MIN_JETS jets. *)
Definition min_jets_mask (arr_pt : list (list Q)) : list bool :=
  map (fun n => MIN_JETS <=? n) (Ak.num arr_pt).

Definition keep_min_jets_events (j : JetArrays) : JetArrays :=
  let mask := min_jets_mask (a_pt j) in
  {| a_pt := Ak.getitem_mask1 (a_pt j) mask;
     a_eta := Ak.getitem_mask1 (a_eta j) mask;
     a_phi := Ak.getitem_mask1 (a_phi j) mask;
     a_btag := Ak.getitem_mask1 (a_btag j) mask;
     a_jet_id := Ak.getitem_mask1 (a_jet_id j) mask;
     a_higgs_idx := Ak.getitem_mask1 (a_higgs_idx j) mask;
     a_hadron_flavor := Ak.getitem_mask1 (a_hadron_flavor j) mask |}.

(** Lines 139-142: switch -1 -> 0, then require hadron_flavor == 5. *)
Definition switch_unmatched (idx : list (list Z)) : list (list Z) :=
  Ak.where_scalar (Ak.map2d (fun h => (-1 <? h)%Z) idx) idx 0%Z.

Definition require_b_flavor (flavor idx : list (list Z)) : list (list Z) :=
  Ak.where_scalar (Ak.map2d (fun f => (f =? 5)%Z) flavor) idx 0%Z.

Definition rewrite_higgs_idx (j : JetArrays) : JetArrays :=
  let higgs_idx := switch_unmatched (a_higgs_idx j) in
  let higgs_idx := require_b_flavor (a_hadron_flavor j) higgs_idx in
  {| a_pt := a_pt j;
     a_eta := a_eta j;
     a_phi := a_phi j;
     a_btag := a_btag j;
     a_jet_id := a_jet_id j;
     a_higgs_idx := higgs_idx;
     a_hadron_flavor := a_hadron_flavor j |}.

(** Everything [process] holds when it reaches line 144: the seven jet
    columns after the three steps, and the three parent columns as loaded on
    lines 107-109. *)
Record Filtered : Type := mkFiltered {
  jets : JetArrays;
  higgs_pt : list (list Q);
  higgs_eta : list (list Q);
  higgs_phi : list (list Q)
}.

Definition event_filter (events : list Event) : Filtered :=
  let higgs_pt := get_n_features genHiggsPt events N_HIGGS in
  let higgs_eta := get_n_features genHiggsEta events N_HIGGS in
  let higgs_phi := get_n_features genHiggsPhi events N_HIGGS in
  let j := load_jets events in
  let j := remove_low_pt_jets j in
  let j := keep_min_jets_events j in
  let j := rewrite_higgs_idx j in
  {| jets := j; higgs_pt := higgs_pt; higgs_eta := higgs_eta; higgs_phi := higgs_phi |}.

(** ** Edge enumeration (lines 29-36) *)

Definition get_edge_index {A : Type} (arr : list (list A)) : list (list (nat * nat)) :=
  let edge_index := Ak.argcartesian arr arr in
  let '(one_index, two_index) := Ak.unzip edge_index in
  let mask_self_loops := Ak.zip_with2d (fun i j => negb (i =? j)) one_index two_index in
  Ak.getitem_mask2 edge_index mask_self_loops.

(** ** Edge features and edge targets (lines 39-72) *)

Record EdgeFeatures : Type := mkEdgeFeatures {
  log_delta_r : list (list Q);
  log_mass2 : list (list Q);
  log_kt : list (list Q);
  log_z : list (list Q);
  log_pt_jj : list (list Q);
  eta_jj : list (list Q);
  phi_jj : list (list Q);
  edge_match : list (list Z)
}.

(** [ak.zip] of the five jet columns into records (lines 40-42). *)
Definition zip_jets (pt eta phi mass : list (list Q)) (higgs_idx : list (list Z))
    : list (list Momentum4D) :=
  Ak.zip_with2d (fun '(p, e, f, m) h => mkMomentum4D p e f m h)
    (Ak.zip_with2d pair (Ak.zip_with2d pair (Ak.zip_with2d pair pt eta) phi) mass)
    higgs_idx.

(** Lines 47-49: all ordered pairs of jets of an event, without those whose
    two members compare equal. *)
Definition jet_pairs_of (jets : list (list Momentum4D)) : list (list (Momentum4D * Momentum4D)) :=
  let jet_pairs := Ak.cartesian jets jets in
  let mask_self_loops := Ak.map2d (fun p => negb (momentum4d_equal (fst p) (snd p))) jet_pairs in
  Ak.getitem_mask2 jet_pairs mask_self_loops.

(** Lines 58-59, the helpers: for one pair,
    [where(j0.pt < j1.pt, j0.pt, j1.pt)] and [j0.pt + j1.pt]. *)
Definition pair_min_pt (p : Momentum4D * Momentum4D) : Q :=
  if Qlt_bool (pt (fst p)) (pt (snd p)) then pt (fst p) else pt (snd p).

Definition pair_sum_pt (p : Momentum4D * Momentum4D) : Q := pt (fst p) + pt (snd p).

Definition min_pt_of (jet_pairs : list (list (Momentum4D * Momentum4D))) : list (list Q) :=
  Ak.map2d pair_min_pt jet_pairs.

Definition sum_pt_of (jet_pairs : list (list (Momentum4D * Momentum4D))) : list (list Q) :=
  Ak.map2d pair_sum_pt jet_pairs.

(** Lines 120, 58, 59 and 65 on IEEE binary64 values: the pt mask, the two
    helpers and the argument of the logarithm of [log_z]. *)
Module Binary64.

Definition pt_mask (p : float) : bool := (20 <? p)%float.

Definition min_pt (p0 p1 : float) : float := if (p0 <? p1)%float then p0 else p1.

Definition sum_pt (p0 p1 : float) : float := (p0 + p1)%float.

Definition log_z_arg (p0 p1 : float) : float := (min_pt p0 p1 / sum_pt p0 p1)%float.

End Binary64.

(** Line 71, the edge target of one pair:
    [where(j0.higgs_idx > 0, j0.higgs_idx == j1.higgs_idx, 0)]. *)
Definition edge_match_of (p : Momentum4D * Momentum4D) : Z :=
  if (0 <? higgs_idx (fst p))%Z
  then Z.b2z (higgs_idx (fst p) =? higgs_idx (snd p))%Z
  else 0%Z.

Section WithLibrary.

Variable L : VectorLib.

Definition compute_edge_features (pt eta phi : list (list Q)) (higgs_idx : list (list Z))
    (higgs_pt higgs_eta higgs_phi : list (list Q)) : EdgeFeatures :=
  let jets := zip_jets pt eta phi (Ak.zeros_like pt) higgs_idx in
  let jet_pairs := jet_pairs_of jets in
  (* in the future: can use higgses to check matching criteria *)
  let higgses :=
    Ak.zip_with2d pair (Ak.zip_with2d pair (Ak.zip_with2d pair higgs_pt higgs_eta) higgs_phi)
      (Ak.map2d (fun one => one * 125) (Ak.ones_like higgs_pt)) in
  let min_pt := min_pt_of jet_pairs in
  let sum_pt := sum_pt_of jet_pairs in
  let log_delta_r := Ak.map2d (fun p => np_log L (deltaR L (fst p) (snd p))) jet_pairs in
  let log_mass2 := Ak.map2d (fun p => np_log L (vec_mass2 L (vadd L (fst p) (snd p)))) jet_pairs in
  let log_kt := Ak.zip_with2d Qplus (Ak.map2d (np_log L) min_pt) log_delta_r in
  let log_z := Ak.map2d (np_log L) (Ak.zip_with2d Qdiv min_pt sum_pt) in
  let log_pt_jj := Ak.map2d (fun p => np_log L (vec_pt L (vadd L (fst p) (snd p)))) jet_pairs in
  let eta_jj := Ak.map2d (fun p => vec_eta L (vadd L (fst p) (snd p))) jet_pairs in
  let phi_jj := Ak.map2d (fun p => vec_phi L (vadd L (fst p) (snd p))) jet_pairs in
  let edge_match := Ak.map2d edge_match_of jet_pairs in
  {| log_delta_r := log_delta_r; log_mass2 := log_mass2; log_kt := log_kt; log_z := log_z;
     log_pt_jj := log_pt_jj; eta_jj := eta_jj; phi_jj := phi_jj; edge_match := edge_match |}.

(** ** Graph records and the event loop (lines 149-169) *)

(** One [Data(x, edge_attr, edge_index, y)].  [edge_index] is the 2 x E
    tensor: the row of first positions and the row of second positions. *)
Record Data : Type := mkData {
  x : list (list Q);
  edge_attr : list (list Q);
  edge_index : list nat * list nat;
  y : list Z
}.

(** Indexing and stacking can raise; [None] stands for the exception. *)
Definition bind {A B : Type} (o : option A) (k : A -> option B) : option B :=
  match o with
  | Some a => k a
  | None => None
  end.

Notation "'do' v <- e ; k" := (bind e (fun v => k))
  (at level 10, v name, e at level 100, k at level 200).

(** [arr[i]] for a position [i >= 0]: IndexError out of range. *)
Definition getitem {A : Type} (arr : list A) (i : nat) : option A := nth_error arr i.

(** [np.stack(cols, axis=-1)] of one-dimensional arrays: they must all have
    one length, and row [r] of the result holds entry [r] of every array. *)
Definition np_stack (cols : list (list Q)) : option (list (list Q)) :=
  match cols with
  | [] => None
  | c :: _ =>
      if forallb (fun c' => length c' =? length c) cols
      then Some (map (fun r => map (fun col => nth r col 0) cols) (seq 0 (length c)))
      else None
  end.

(** Lines 155-168, the body of the loop once the event passed line 152. *)
Definition build_data (j : JetArrays) (edge_indices : list (list (nat * nat)))
    (ef : EdgeFeatures) (i : nat) : option Data :=
  do pt_i <- getitem (a_pt j) i;
  do eta_i <- getitem (a_eta j) i;
  do phi_i <- getitem (a_phi j) i;
  do btag_i <- getitem (a_btag j) i;
  do jet_id_i <- getitem (a_jet_id j) i;
  do x <- np_stack [map (np_log L) pt_i; eta_i; phi_i; btag_i; map inject_Z jet_id_i];
  do log_delta_r_i <- getitem (log_delta_r ef) i;
  do log_mass2_i <- getitem (log_mass2 ef) i;
  do log_kt_i <- getitem (log_kt ef) i;
  do log_z_i <- getitem (log_z ef) i;
  do log_pt_jj_i <- getitem (log_pt_jj ef) i;
  do eta_jj_i <- getitem (eta_jj ef) i;
  do phi_jj_i <- getitem (phi_jj ef) i;
  do edge_attr <- np_stack [log_delta_r_i; log_mass2_i; log_kt_i; log_z_i; log_pt_jj_i;
                            eta_jj_i; phi_jj_i];
  do edge_indices_i <- getitem edge_indices i;
  do edge_match_i <- getitem (edge_match ef) i;
  Some {| x := x; edge_attr := edge_attr; edge_index := List.split edge_indices_i;
          y := edge_match_i |}.

(** Lines 151-169: [data_list] is threaded through the iterations. *)
Fixpoint event_loop (j : JetArrays) (edge_indices : list (list (nat * nat)))
    (ef : EdgeFeatures) (range : list nat) (data_list : list Data) : option (list Data) :=
  match range with
  | [] => Some data_list
  | i :: range' =>
      do pt_i <- getitem (a_pt j) i;
      if length pt_i <? MIN_JETS
      then event_loop j edge_indices ef range' data_list
      else
        do data <- build_data j edge_indices ef i;
        event_loop j edge_indices ef range' (data_list ++ [data])
  end.

(** Lines 99-169 for the one raw file: the list of graph records. *)
Definition build_data_list (events : list Event) : option (list Data) :=
  let f := event_filter events in
  let j := jets f in
  let edge_indices := get_edge_index (Ak.zeros_like (a_pt j)) in
  let ef := compute_edge_features (a_pt j) (a_eta j) (a_phi j) (a_higgs_idx j)
              (higgs_pt f) (higgs_eta f) (higgs_phi f) in
  let n_events := length (a_pt j) in
  event_loop j edge_indices ef (seq 0 n_events) [].

(** Lines 97-178.  Lines 171-175 are the optional [pre_filter] and
    [pre_transform] hooks, both [None] unless the caller passes them.  On
    line 177 the list goes to [self.collate], a method of the dataset class
    of torch_geometric, taken as a parameter: it returns what line 178 saves
    or raises. *)
Definition process {S : Type} (collate : list Data -> option S)
    (pre_filter : option (Data -> bool)) (pre_transform : option (Data -> Data))
    (events : list Event) : option S :=
  do data_list <- build_data_list events;
  let data_list :=
    match pre_filter with
    | Some keep => filter keep data_list
    | None => data_list
    end in
  let data_list :=
    match pre_transform with
    | Some t => map t data_list
    | None => data_list
    end in
  collate data_list.

End WithLibrary.

(** * The pipeline event by event

    What the vectorised steps come to for a single event.  The lemmas below
    prove that the arrays of [process] are these, event after event. *)

(** The jet slots of an event that pass line 120. *)
Definition surviving_slots (ev : Event) : list nat :=
  filter (fun i => Qlt_bool MIN_JET_PT (jetPt ev i)) (seq 1 N_JETS).

(** The events that pass line 130. *)
Definition retained (events : list Event) : list Event :=
  filter (fun ev => MIN_JETS <=? length (surviving_slots ev)) events.

(** The match index of a jet after lines 140 and 142. *)
Definition rewritten_idx (ev : Event) (i : nat) : Z :=
  if (jetHadronFlavour ev i =? 5)%Z
  then (if (-1 <? jetHiggsMatchedIndex ev i)%Z then jetHiggsMatchedIndex ev i else 0%Z)
  else 0%Z.

(** A column of a branch template over chosen slots of every event. *)
Definition column {A : Type} (name : Event -> nat -> A) (slots : Event -> list nat)
    (events : list Event) : list (list A) :=
  map (fun ev => map (name ev) (slots ev)) events.

(** The ordered pairs of distinct positions among [k] nodes, row by row. *)
Definition edges (k : nat) : list (nat * nat) :=
  filter (fun p => negb (fst p =? snd p)) (list_prod (seq 0 k) (seq 0 k)).

(** The jets of an event as line 40 zips them, after the filter. *)
Definition event_jets (ev : Event) : list Momentum4D :=
  map (fun i => mkMomentum4D (jetPt ev i) (jetEta ev i) (jetPhi ev i) 0 (rewritten_idx ev i))
    (surviving_slots ev).

(** The pairs of jets of an event that line 49 keeps. *)
Definition event_jet_pairs (ev : Event) : list (Momentum4D * Momentum4D) :=
  filter (fun p => negb (momentum4d_equal (fst p) (snd p)))
    (list_prod (event_jets ev) (event_jets ev)).

(** The pairs [compute_edge_features] works on when line 145 calls it. *)
Definition filtered_jet_pairs (events : list Event) : list (list (Momentum4D * Momentum4D)) :=
  let j := jets (event_filter events) in
  jet_pairs_of (zip_jets (a_pt j) (a_eta j) (a_phi j) (Ak.zeros_like (a_pt j)) (a_higgs_idx j)).

Section PerEvent.

Variable L : VectorLib.

(** The rows of the node matrix and of the edge feature matrix. *)
Definition node_row (ev : Event) (i : nat) : list Q :=
  [np_log L (jetPt ev i); jetEta ev i; jetPhi ev i; jetDeepFlavB ev i; inject_Z (jetJetId ev i)].

Definition edge_row (p : Momentum4D * Momentum4D) : list Q :=
  [np_log L (deltaR L (fst p) (snd p));
   np_log L (vec_mass2 L (vadd L (fst p) (snd p)));
   np_log L (pair_min_pt p) + np_log L (deltaR L (fst p) (snd p));
   np_log L (pair_min_pt p / pair_sum_pt p);
   np_log L (vec_pt L (vadd L (fst p) (snd p)));
   vec_eta L (vadd L (fst p) (snd p));
   vec_phi L (vadd L (fst p) (snd p))].

Definition graph_of (ev : Event) : Data :=
  {| x := map (node_row ev) (surviving_slots ev);
     edge_attr := map edge_row (event_jet_pairs ev);
     edge_index := List.split (edges (length (surviving_slots ev)));
     y := map edge_match_of (event_jet_pairs ev) |}.

Definition pair_column {A : Type} (f : Momentum4D * Momentum4D -> A) (events : list Event)
    : list (list A) :=
  map (fun ev => map f (event_jet_pairs ev)) events.

(** The arrays the loop reads, over a list of events that all have at least
    MIN_JETS surviving jets. *)
Definition jets_of_events (evs : list Event) : JetArrays :=
  {| a_pt := column jetPt surviving_slots evs;
     a_eta := column jetEta surviving_slots evs;
     a_phi := column jetPhi surviving_slots evs;
     a_btag := column jetDeepFlavB surviving_slots evs;
     a_jet_id := column jetJetId surviving_slots evs;
     a_higgs_idx := column rewritten_idx surviving_slots evs;
     a_hadron_flavor := column jetHadronFlavour surviving_slots evs |}.

Definition edge_features_of_events (evs : list Event) : EdgeFeatures :=
  {| log_delta_r := pair_column (fun p => nth 0 (edge_row p) 0) evs;
     log_mass2 := pair_column (fun p => nth 1 (edge_row p) 0) evs;
     log_kt := pair_column (fun p => nth 2 (edge_row p) 0) evs;
     log_z := pair_column (fun p => nth 3 (edge_row p) 0) evs;
     log_pt_jj := pair_column (fun p => nth 4 (edge_row p) 0) evs;
     eta_jj := pair_column (fun p => nth 5 (edge_row p) 0) evs;
     phi_jj := pair_column (fun p => nth 6 (edge_row p) 0) evs;
     edge_match := pair_column edge_match_of evs |}.

End PerEvent.

(** Every jet compares equal to itself: none has a not-a-number coordinate. *)
Definition self_equal (js : list Momentum4D) : Prop :=
  Forall (fun a => momentum4d_equal a a = true) js.

(** No two jets at different positions compare equal. *)
Definition distinct_kinematics (js : list Momentum4D) : Prop :=
  forall m n a b,
    nth_error js m = Some a -> nth_error js n = Some b -> m <> n ->
    momentum4d_equal a b = false.

Definition no_jet : Momentum4D := mkMomentum4D 0 0 0 0 0.

Definition jets_at (js : list Momentum4D) (e : nat * nat) : Momentum4D * Momentum4D :=
  (nth (fst e) js no_jet, nth (snd e) js no_jet).

(** Two events agree on the seven jet branch templates at the slots
    1..N_JETS; they may differ anywhere else. *)
Definition same_jet_branches (e e' : Event) : Prop :=
  forall i, (1 <= i <= N_JETS)%nat ->
    jetPt e i = jetPt e' i /\ jetEta e i = jetEta e' i /\ jetPhi e i = jetPhi e' i /\
    jetDeepFlavB e i = jetDeepFlavB e' i /\ jetJetId e i = jetJetId e' i /\
    jetHiggsMatchedIndex e i = jetHiggsMatchedIndex e' i /\
    jetHadronFlavour e i = jetHadronFlavour e' i.

(** ** Concrete events *)

Module Examples.

(** One jet slot of the input: pt, eta, phi, matched-Higgs index, hadron
    flavour. *)
Record Slot : Type := mkSlot {
  s_pt : Q;
  s_eta : Q;
  s_phi : Q;
  s_idx : Z;
  s_flavour : Z
}.

(** The zero padding of an unused slot. *)
Definition padding : Slot := mkSlot 0 0 0 (-1) 0.

(** An event from the list of its slots 1, 2, ...; the b-tag score, the jet
    id and the generated Higgs bosons are the same for all. *)
Definition event_of (slots : list Slot) : Event :=
  {| jetPt := fun i => s_pt (nth (i - 1) slots padding);
     jetEta := fun i => s_eta (nth (i - 1) slots padding);
     jetPhi := fun i => s_phi (nth (i - 1) slots padding);
     jetDeepFlavB := fun _ => 1 # 2;
     jetJetId := fun _ => 6%Z;
     jetHiggsMatchedIndex := fun i => s_idx (nth (i - 1) slots padding);
     jetHadronFlavour := fun i => s_flavour (nth (i - 1) slots padding);
     genHiggsPt := fun _ => 100;
     genHiggsEta := fun _ => 0;
     genHiggsPhi := fun _ => 0 |}.

(** Ten slots, four of them not above MIN_JET_PT (one exactly at it).  Of the
    six surviving jets two are matched to Higgs 2 with flavour 5, one is
    matched to Higgs 1 with flavour 4, one is matched to Higgs 3 alone. *)
Definition ev_six : Event :=
  event_of
    [ mkSlot 90 (1 # 2) (1 # 10) 2 5;
      mkSlot 80 (-3 # 2) 1 (-1) 5;
      mkSlot 20 0 2 1 5;
      mkSlot 70 (1 # 4) (-2) 1 4;
      mkSlot 60 2 3 2 5;
      mkSlot 50 (-1) (-1) (-1) 0;
      mkSlot 40 (3 # 4) (-3) 3 5;
      mkSlot 15 0 0 (-1) 0;
      mkSlot 0 0 0 (-1) 0;
      mkSlot 0 0 0 (-1) 0 ].

(** Five jets above MIN_JET_PT. *)
Definition ev_five : Event :=
  event_of
    [ mkSlot 90 (1 # 2) (1 # 10) 1 5;
      mkSlot 80 (-3 # 2) 1 1 5;
      mkSlot 70 (1 # 4) (-2) 2 5;
      mkSlot 60 2 3 2 5;
      mkSlot 50 (-1) (-1) 3 5 ].

(** Six jets above MIN_JET_PT; slots 2 and 5 carry the same pt, eta and
    phi. *)
Definition ev_twins : Event :=
  event_of
    [ mkSlot 90 (1 # 2) (1 # 10) 2 5;
      mkSlot 55 (-3 # 2) 1 1 5;
      mkSlot 70 (1 # 4) (-2) 2 5;
      mkSlot 60 2 3 3 5;
      mkSlot 55 (-3 # 2) 1 1 5;
      mkSlot 40 (3 # 4) (-3) 3 5 ].

(** A library of rational stand-ins, to state examples on closed terms. *)
Definition toy_lib : VectorLib :=
  {| Vec := Q;
     np_log := fun q => q;
     deltaR := fun a b => pt a - pt b;
     vadd := fun a b => pt a + pt b;
     vec_mass2 := fun v => v;
     vec_pt := fun v => v;
     vec_eta := fun v => v;
     vec_phi := fun v => v |}.

(** An event with other generated Higgs bosons. *)
Definition with_parents (ev : Event) (h_pt h_eta h_phi : nat -> Q) : Event :=
  {| jetPt := jetPt ev;
     jetEta := jetEta ev;
     jetPhi := jetPhi ev;
     jetDeepFlavB := jetDeepFlavB ev;
     jetJetId := jetJetId ev;
     jetHiggsMatchedIndex := jetHiggsMatchedIndex ev;
     jetHadronFlavour := jetHadronFlavour ev;
     genHiggsPt := h_pt;
     genHiggsEta := h_eta;
     genHiggsPhi := h_phi |}.

(** Three jets matched to Higgs 2. *)
Definition jet_a : Momentum4D := mkMomentum4D 90 (1 # 2) (1 # 10) 0 2.
Definition jet_b : Momentum4D := mkMomentum4D 60 2 3 0 2.
Definition jet_c : Momentum4D := mkMomentum4D 45 (-1) (-2) 0 2.

End Examples.

(** * Properties *)

(** ** Arrays built over one list of events

    All columns of the source are computed from the same table of events, so
    every jagged operation meets arrays of one shape.  The lemmas of this
    section rewrite the operations on such arrays into plain list functions. *)

Lemma combine_map_map {T A B : Type} (f : T -> A) (g : T -> B) (l : list T) :
  combine (map f l) (map g l) = map (fun t => (f t, g t)) l.
Proof.
  induction l as [|t l IH]; simpl; [reflexivity | now rewrite IH].
Qed.

Lemma zip_with_map_map {T A B C : Type} (h : A -> B -> C) (f : T -> A) (g : T -> B) (l : list T) :
  Ak.zip_with h (map f l) (map g l) = map (fun t => h (f t) (g t)) l.
Proof.
  unfold Ak.zip_with. rewrite combine_map_map, map_map. reflexivity.
Qed.

Lemma getitem_mask1_map_map {T A : Type} (f : T -> A) (g : T -> bool) (l : list T) :
  Ak.getitem_mask1 (map f l) (map g l) = map f (filter g l).
Proof.
  unfold Ak.getitem_mask1. rewrite combine_map_map.
  induction l as [|t l IH]; simpl; [reflexivity|].
  destruct (g t); simpl; now rewrite IH.
Qed.

Lemma zip_with2d_map_map {E T A B C : Type} (h : A -> B -> C)
    (f : E -> T -> A) (g : E -> T -> B) (s : E -> list T) (evs : list E) :
  Ak.zip_with2d h (map (fun e => map (f e) (s e)) evs) (map (fun e => map (g e) (s e)) evs)
  = map (fun e => map (fun t => h (f e t) (g e t)) (s e)) evs.
Proof.
  unfold Ak.zip_with2d. rewrite zip_with_map_map.
  apply map_ext; intro e. apply zip_with_map_map.
Qed.

Lemma getitem_mask2_map_map {E T A : Type}
    (f : E -> T -> A) (g : E -> T -> bool) (s : E -> list T) (evs : list E) :
  Ak.getitem_mask2 (map (fun e => map (f e) (s e)) evs) (map (fun e => map (g e) (s e)) evs)
  = map (fun e => map (f e) (filter (g e) (s e))) evs.
Proof.
  unfold Ak.getitem_mask2. rewrite zip_with_map_map.
  apply map_ext; intro e. apply getitem_mask1_map_map.
Qed.

Lemma map2d_map_map {E T A B : Type} (h : A -> B) (f : E -> T -> A) (s : E -> list T)
    (evs : list E) :
  Ak.map2d h (map (fun e => map (f e) (s e)) evs)
  = map (fun e => map (fun t => h (f e t)) (s e)) evs.
Proof.
  unfold Ak.map2d. rewrite map_map. apply map_ext; intro e. apply map_map.
Qed.

(** ** The event filter, event by event *)

Lemma get_n_features_column {A : Type} (name : Event -> nat -> A) events n :
  get_n_features name events n = column name (fun _ => seq 1 n) events.
Proof. reflexivity. Qed.

Lemma jet_pt_mask_column events :
  jet_pt_mask (column jetPt (fun _ => seq 1 N_JETS) events)
  = column (fun ev i => Qlt_bool MIN_JET_PT (jetPt ev i)) (fun _ => seq 1 N_JETS) events.
Proof. unfold jet_pt_mask, column. apply map2d_map_map. Qed.

Lemma mask2_column {A : Type} (name : Event -> nat -> A) events :
  Ak.getitem_mask2 (column name (fun _ => seq 1 N_JETS) events)
    (column (fun ev i => Qlt_bool MIN_JET_PT (jetPt ev i)) (fun _ => seq 1 N_JETS) events)
  = column name surviving_slots events.
Proof. unfold column. apply getitem_mask2_map_map. Qed.

Lemma remove_low_pt_jets_columns events :
  remove_low_pt_jets (load_jets events)
  = {| a_pt := column jetPt surviving_slots events;
       a_eta := column jetEta surviving_slots events;
       a_phi := column jetPhi surviving_slots events;
       a_btag := column jetDeepFlavB surviving_slots events;
       a_jet_id := column jetJetId surviving_slots events;
       a_higgs_idx := column jetHiggsMatchedIndex surviving_slots events;
       a_hadron_flavor := column jetHadronFlavour surviving_slots events |}.
Proof.
  unfold remove_low_pt_jets, load_jets; cbn [a_pt a_eta a_phi a_btag a_jet_id a_higgs_idx
    a_hadron_flavor].
  rewrite !get_n_features_column, jet_pt_mask_column, !mask2_column. reflexivity.
Qed.

Lemma min_jets_mask_column events :
  min_jets_mask (column jetPt surviving_slots events)
  = map (fun ev => MIN_JETS <=? length (surviving_slots ev)) events.
Proof.
  unfold min_jets_mask, Ak.num, column. rewrite !map_map.
  apply map_ext; intro ev. now rewrite length_map.
Qed.

Lemma mask1_column {A : Type} (name : Event -> nat -> A) events :
  Ak.getitem_mask1 (column name surviving_slots events)
    (map (fun ev => MIN_JETS <=? length (surviving_slots ev)) events)
  = column name surviving_slots (retained events).
Proof. unfold column, retained. apply getitem_mask1_map_map. Qed.

Lemma keep_min_jets_events_columns events :
  keep_min_jets_events (remove_low_pt_jets (load_jets events))
  = {| a_pt := column jetPt surviving_slots (retained events);
       a_eta := column jetEta surviving_slots (retained events);
       a_phi := column jetPhi surviving_slots (retained events);
       a_btag := column jetDeepFlavB surviving_slots (retained events);
       a_jet_id := column jetJetId surviving_slots (retained events);
       a_higgs_idx := column jetHiggsMatchedIndex surviving_slots (retained events);
       a_hadron_flavor := column jetHadronFlavour surviving_slots (retained events) |}.
Proof.
  rewrite remove_low_pt_jets_columns.
  unfold keep_min_jets_events; cbn [a_pt a_eta a_phi a_btag a_jet_id a_higgs_idx
    a_hadron_flavor].
  rewrite min_jets_mask_column, !mask1_column. reflexivity.
Qed.

Lemma rewrite_higgs_idx_column events :
  require_b_flavor (column jetHadronFlavour surviving_slots events)
    (switch_unmatched (column jetHiggsMatchedIndex surviving_slots events))
  = column rewritten_idx surviving_slots events.
Proof.
  unfold require_b_flavor, switch_unmatched, Ak.where_scalar, column.
  rewrite !map2d_map_map, !zip_with2d_map_map. reflexivity.
Qed.

Lemma event_filter_jets events :
  jets (event_filter events)
  = {| a_pt := column jetPt surviving_slots (retained events);
       a_eta := column jetEta surviving_slots (retained events);
       a_phi := column jetPhi surviving_slots (retained events);
       a_btag := column jetDeepFlavB surviving_slots (retained events);
       a_jet_id := column jetJetId surviving_slots (retained events);
       a_higgs_idx := column rewritten_idx surviving_slots (retained events);
       a_hadron_flavor := column jetHadronFlavour surviving_slots (retained events) |}.
Proof.
  unfold event_filter; cbn [jets].
  rewrite keep_min_jets_events_columns.
  unfold rewrite_higgs_idx; cbn [a_pt a_eta a_phi a_btag a_jet_id a_higgs_idx a_hadron_flavor].
  rewrite rewrite_higgs_idx_column. reflexivity.
Qed.

(** ** Edges and jet pairs, event by event *)

Lemma zip_with_diag {A C : Type} (h : A -> A -> C) (l : list A) :
  Ak.zip_with h l l = map (fun a => h a a) l.
Proof.
  rewrite <- (map_id l) at 1 2. rewrite zip_with_map_map. reflexivity.
Qed.

Lemma getitem_mask1_filter {A : Type} (h : A -> bool) (l : list A) :
  Ak.getitem_mask1 l (map h l) = filter h l.
Proof.
  rewrite <- (map_id l) at 1. rewrite getitem_mask1_map_map. apply map_id.
Qed.

Lemma getitem_mask2_filter {E A : Type} (P : E -> list A) (h : E -> A -> bool) (evs : list E) :
  Ak.getitem_mask2 (map P evs) (map (fun e => map (h e) (P e)) evs)
  = map (fun e => filter (h e) (P e)) evs.
Proof.
  unfold Ak.getitem_mask2. rewrite zip_with_map_map.
  apply map_ext; intro e. apply getitem_mask1_filter.
Qed.

Lemma get_edge_index_rows {A : Type} (arr : list (list A)) :
  get_edge_index arr = map (fun row => edges (length row)) arr.
Proof.
  unfold get_edge_index, Ak.argcartesian, Ak.unzip, Ak.map2d.
  rewrite zip_with_diag, !map_map.
  rewrite (zip_with2d_map_map (fun i j => negb (i =? j)) (fun _ => fst) (fun _ => snd)
             (fun row => list_prod (seq 0 (length row)) (seq 0 (length row))) arr).
  rewrite (getitem_mask2_filter
             (fun row => list_prod (seq 0 (length row)) (seq 0 (length row)))
             (fun _ p => negb (fst p =? snd p)) arr).
  reflexivity.
Qed.

Lemma get_edge_index_column events :
  get_edge_index (Ak.zeros_like (column jetPt surviving_slots events))
  = map (fun ev => edges (length (surviving_slots ev))) events.
Proof.
  rewrite get_edge_index_rows. unfold Ak.zeros_like, Ak.map2d, column.
  rewrite !map_map. apply map_ext; intro ev. now rewrite !length_map.
Qed.

Lemma zip_jets_columns events :
  zip_jets (column jetPt surviving_slots events) (column jetEta surviving_slots events)
    (column jetPhi surviving_slots events)
    (Ak.zeros_like (column jetPt surviving_slots events))
    (column rewritten_idx surviving_slots events)
  = map event_jets events.
Proof.
  unfold zip_jets, Ak.zeros_like, column, event_jets.
  rewrite map2d_map_map, !zip_with2d_map_map. reflexivity.
Qed.

Lemma jet_pairs_of_events events :
  jet_pairs_of (map event_jets events) = map event_jet_pairs events.
Proof.
  unfold jet_pairs_of, Ak.cartesian, Ak.map2d.
  rewrite zip_with_diag, !map_map.
  apply (getitem_mask2_filter (fun ev => list_prod (event_jets ev) (event_jets ev))
           (fun _ p => negb (momentum4d_equal (fst p) (snd p))) events).
Qed.

Lemma filtered_jet_pairs_events events :
  filtered_jet_pairs events = map event_jet_pairs (retained events).
Proof.
  unfold filtered_jet_pairs. rewrite event_filter_jets.
  cbn [a_pt a_eta a_phi a_higgs_idx].
  now rewrite zip_jets_columns, jet_pairs_of_events.
Qed.

(** ** The graph of one retained event *)

Section GraphOfEvent.

Variable L : VectorLib.

Lemma map2d_rows {E A B : Type} (h : A -> B) (P : E -> list A) (evs : list E) :
  Ak.map2d h (map P evs) = map (fun e => map h (P e)) evs.
Proof. unfold Ak.map2d. apply map_map. Qed.

Lemma map2d_rows2 {E T A B : Type} (h : A -> B) (f : T -> A) (P : E -> list T) (evs : list E) :
  Ak.map2d h (map (fun e => map f (P e)) evs) = map (fun e => map (fun t => h (f t)) (P e)) evs.
Proof. apply (map2d_map_map h (fun _ => f) P evs). Qed.

Lemma zip_with2d_rows {E T A B C : Type} (h : A -> B -> C) (f : T -> A) (g : T -> B)
    (P : E -> list T) (evs : list E) :
  Ak.zip_with2d h (map (fun e => map f (P e)) evs) (map (fun e => map g (P e)) evs)
  = map (fun e => map (fun t => h (f t) (g t)) (P e)) evs.
Proof. apply (zip_with2d_map_map h (fun _ => f) (fun _ => g) P evs). Qed.

Lemma compute_edge_features_columns events hpt heta hphi :
  compute_edge_features L (column jetPt surviving_slots events)
    (column jetEta surviving_slots events) (column jetPhi surviving_slots events)
    (column rewritten_idx surviving_slots events) hpt heta hphi
  = {| log_delta_r := pair_column (fun p => nth 0 (edge_row L p) 0) events;
       log_mass2 := pair_column (fun p => nth 1 (edge_row L p) 0) events;
       log_kt := pair_column (fun p => nth 2 (edge_row L p) 0) events;
       log_z := pair_column (fun p => nth 3 (edge_row L p) 0) events;
       log_pt_jj := pair_column (fun p => nth 4 (edge_row L p) 0) events;
       eta_jj := pair_column (fun p => nth 5 (edge_row L p) 0) events;
       phi_jj := pair_column (fun p => nth 6 (edge_row L p) 0) events;
       edge_match := pair_column edge_match_of events |}.
Proof.
  unfold compute_edge_features.
  rewrite zip_jets_columns, jet_pairs_of_events.
  unfold min_pt_of, sum_pt_of, pair_column, edge_row; cbn [nth].
  rewrite !(map2d_rows _ event_jet_pairs events).
  rewrite !(map2d_rows2 _ _ event_jet_pairs events).
  rewrite !(zip_with2d_rows _ _ _ event_jet_pairs events).
  rewrite !(map2d_rows2 _ _ event_jet_pairs events).
  reflexivity.
Qed.

(** Stacking columns that are maps over one list gives one row per element. *)
Lemma stack_rows {A : Type} (fs : list (A -> Q)) (l : list A) :
  map (fun r => map (fun col => nth r col 0) (map (fun f => map f l) fs)) (seq 0 (length l))
  = map (fun a => map (fun f => f a) fs) l.
Proof.
  induction l as [|a l IH]; [reflexivity|].
  cbn [length seq map]. f_equal.
  - rewrite map_map. reflexivity.
  - rewrite <- seq_shift, map_map, <- IH.
    apply map_ext; intro r. rewrite !map_map. reflexivity.
Qed.

Lemma np_stack_columns {A : Type} (f : A -> Q) (fs : list (A -> Q)) (l : list A) :
  np_stack (map (fun g => map g l) (f :: fs))
  = Some (map (fun a => map (fun g => g a) (f :: fs)) l).
Proof.
  unfold np_stack. cbn [map].
  replace (forallb _ _) with true.
  - rewrite length_map. f_equal. apply (stack_rows (f :: fs) l).
  - symmetry. apply forallb_forall. intros c Hc.
    change (In c (map (fun g => map g l) (f :: fs))) in Hc.
    apply in_map_iff in Hc. destruct Hc as [g [<- _]].
    rewrite !length_map. apply Nat.eqb_refl.
Qed.

Lemma getitem_map {A B : Type} (f : A -> B) (l : list A) (i : nat) (a : A) :
  nth_error l i = Some a -> getitem (map f l) i = Some (f a).
Proof. apply map_nth_error. Qed.

Lemma build_data_event (evs : list Event) (i : nat) (ev : Event) :
  nth_error evs i = Some ev ->
  build_data L (jets_of_events evs)
    (map (fun ev => edges (length (surviving_slots ev))) evs)
    (edge_features_of_events L evs) i
  = Some (graph_of L ev).
Proof.
  intro Hi. unfold build_data, jets_of_events, edge_features_of_events, column, pair_column.
  cbn [a_pt a_eta a_phi a_btag a_jet_id log_delta_r log_mass2 log_kt log_z log_pt_jj eta_jj
       phi_jj edge_match].
  rewrite !(getitem_map _ evs i Hi). cbn [bind].
  rewrite !map_map.
  pose proof (np_stack_columns (fun i => np_log L (jetPt ev i))
                [jetEta ev; jetPhi ev; jetDeepFlavB ev; fun i => inject_Z (jetJetId ev i)]
                (surviving_slots ev)) as Hx.
  cbn [map] in Hx. rewrite Hx. cbn [bind].
  pose proof (np_stack_columns (fun p => nth 0 (edge_row L p) 0)
                [fun p => nth 1 (edge_row L p) 0; fun p => nth 2 (edge_row L p) 0;
                 fun p => nth 3 (edge_row L p) 0; fun p => nth 4 (edge_row L p) 0;
                 fun p => nth 5 (edge_row L p) 0; fun p => nth 6 (edge_row L p) 0]
                (event_jet_pairs ev)) as He.
  cbn [map] in He. rewrite He. cbn [bind].
  reflexivity.
Qed.

Lemma event_loop_events (evs pre suf : list Event) (data_list : list Data) :
  Forall (fun ev => (MIN_JETS <= length (surviving_slots ev))%nat) evs ->
  evs = pre ++ suf ->
  event_loop L (jets_of_events evs)
    (map (fun ev => edges (length (surviving_slots ev))) evs)
    (edge_features_of_events L evs) (seq (length pre) (length suf)) data_list
  = Some (data_list ++ map (graph_of L) suf).
Proof.
  intros Hmin. revert pre data_list.
  induction suf as [|ev suf IH]; intros pre data_list Hevs.
  - cbn. now rewrite app_nil_r.
  - assert (Hi : nth_error evs (length pre) = Some ev).
    { rewrite Hevs, nth_error_app2, Nat.sub_diag by lia. reflexivity. }
    cbn [length seq event_loop].
    unfold jets_of_events at 1, column at 1. cbn [a_pt].
    rewrite (getitem_map _ evs (length pre) Hi). cbn [bind].
    rewrite length_map.
    assert (Hk : (MIN_JETS <= length (surviving_slots ev))%nat).
    { rewrite Forall_forall in Hmin. apply Hmin. rewrite Hevs.
      apply in_or_app. right. now left. }
    apply Nat.ltb_ge in Hk. rewrite Hk.
    rewrite (build_data_event evs (length pre) Hi). cbn [bind].
    specialize (IH (pre ++ [ev]) (data_list ++ [graph_of L ev])).
    rewrite length_app in IH. cbn [length] in IH.
    replace (length pre + 1)%nat with (S (length pre)) in IH by lia.
    rewrite IH by (rewrite Hevs, <- app_assoc; reflexivity).
    rewrite <- app_assoc. reflexivity.
Qed.

Lemma retained_min_jets events :
  Forall (fun ev => (MIN_JETS <= length (surviving_slots ev))%nat) (retained events).
Proof.
  apply Forall_forall. intros ev Hev. unfold retained in Hev.
  apply filter_In in Hev. destruct Hev as [_ Hk]. now apply Nat.leb_le in Hk.
Qed.

(** The vectorised pipeline produces, in order, the graph of every retained
    event; no index or stacking error arises. *)
Lemma build_data_list_events events :
  build_data_list L events = Some (map (graph_of L) (retained events)).
Proof.
  unfold build_data_list.
  pose proof (event_filter_jets events) as Hj.
  change (jets (event_filter events) = jets_of_events (retained events)) in Hj.
  rewrite Hj.
  change (a_pt (jets_of_events (retained events)))
    with (column jetPt surviving_slots (retained events)).
  change (a_eta (jets_of_events (retained events)))
    with (column jetEta surviving_slots (retained events)).
  change (a_phi (jets_of_events (retained events)))
    with (column jetPhi surviving_slots (retained events)).
  change (a_higgs_idx (jets_of_events (retained events)))
    with (column rewritten_idx surviving_slots (retained events)).
  rewrite get_edge_index_column, compute_edge_features_columns.
  change (mkEdgeFeatures _ _ _ _ _ _ _ _) with (edge_features_of_events L (retained events)).
  replace (length (column jetPt surviving_slots (retained events)))
    with (length (retained events)) by (unfold column; now rewrite length_map).
  apply (@event_loop_events (retained events) [] (retained events) []
           (retained_min_jets events) eq_refl).
Qed.

End GraphOfEvent.

(** ** Facts about comparisons, edges and pairs *)

Lemma Qlt_bool_iff (a b : Q) : Qlt_bool a b = true <-> a < b.
Proof.
  unfold Qlt_bool. rewrite negb_true_iff, <- not_true_iff_false, Qle_bool_iff.
  split; [apply Qnot_le_lt | apply Qlt_not_le].
Qed.

Lemma surviving_slots_In (ev : Event) (i : nat) :
  In i (surviving_slots ev) <-> (1 <= i <= N_JETS)%nat /\ MIN_JET_PT < jetPt ev i.
Proof.
  unfold surviving_slots. rewrite filter_In, in_seq, Qlt_bool_iff.
  unfold N_JETS. intuition lia.
Qed.

Lemma retained_In (events : list Event) (ev : Event) :
  In ev (retained events)
  <-> In ev events /\ (MIN_JETS <= length (surviving_slots ev))%nat.
Proof. unfold retained. now rewrite filter_In, Nat.leb_le. Qed.

Lemma edges_In (k i j : nat) :
  In (i, j) (edges k) <-> (i < k)%nat /\ (j < k)%nat /\ i <> j.
Proof.
  unfold edges. rewrite filter_In, in_prod_iff, !in_seq, negb_true_iff. cbn [fst snd].
  rewrite Nat.eqb_neq. intuition lia.
Qed.

Lemma length_filter_neq_seq (i s n : nat) :
  length (filter (fun j => negb (i =? j)) (seq s n))
  = (n - (if (s <=? i) && (i <? s + n) then 1 else 0))%nat.
Proof.
  revert s. induction n as [|n IH]; intro s.
  - reflexivity.
  - cbn [seq filter]. specialize (IH (S s)).
    destruct (Nat.eqb_spec i s) as [->|Hne]; cbn [negb length].
    + rewrite IH.
      replace (S s <=? s) with false by (symmetry; apply Nat.leb_gt; lia).
      replace (s <=? s) with true by (symmetry; apply Nat.leb_le; lia).
      replace (s <? s + S n) with true by (symmetry; apply Nat.ltb_lt; lia).
      cbn. lia.
    + rewrite IH.
      destruct (Nat.leb_spec (S s) i), (Nat.leb_spec s i),
        (Nat.ltb_spec i (S s + n)), (Nat.ltb_spec i (s + S n)); cbn; lia.
Qed.

Lemma length_filter_prod_row (k : nat) (l : list nat) :
  Forall (fun i => (i < k)%nat) l ->
  length (filter (fun p => negb (fst p =? snd p)) (list_prod l (seq 0 k)))
  = (length l * (k - 1))%nat.
Proof.
  induction 1 as [|i l Hi _ IH]; [reflexivity|].
  cbn [list_prod length]. rewrite filter_app, length_app, IH.
  assert (Hrow : length (filter (fun p => negb (fst p =? snd p))
                          (map (fun y => (i, y)) (seq 0 k))) = (k - 1)%nat).
  { rewrite <- (length_map (@snd nat nat)).
    replace (map snd (filter (fun p => negb (fst p =? snd p)) (map (fun y => (i, y)) (seq 0 k))))
      with (filter (fun j => negb (i =? j)) (seq 0 k)).
    - rewrite length_filter_neq_seq.
      replace (0 <=? i) with true by (symmetry; apply Nat.leb_le; lia).
      replace (i <? 0 + k) with true by (symmetry; apply Nat.ltb_lt; lia).
      reflexivity.
    - generalize (seq 0 k). intro js.
      induction js as [|j js IHjs]; [reflexivity|].
      cbn [map filter fst snd]. destruct (negb (i =? j)); cbn [map snd]; now rewrite IHjs. }
  rewrite Hrow. lia.
Qed.

Lemma length_edges (k : nat) : length (edges k) = (k * (k - 1))%nat.
Proof.
  unfold edges. rewrite length_filter_prod_row.
  - now rewrite length_seq.
  - apply Forall_forall. intros i Hi. apply in_seq in Hi. lia.
Qed.

Lemma combine_split_id {A B : Type} (l : list (A * B)) :
  combine (fst (List.split l)) (snd (List.split l)) = l.
Proof.
  pose proof (split_combine l) as H. destruct (List.split l) as [xs ys].
  apply H. reflexivity.
Qed.

Lemma Forall2_map_r {A B : Type} (P : A -> B -> Prop) (f : A -> B) (l : list A) :
  (forall a, In a l -> P a (f a)) -> Forall2 P l (map f l).
Proof.
  induction l as [|a l IH]; intro H; cbn; constructor.
  - apply H. now left.
  - apply IH. intros b Hb. apply H. now right.
Qed.

Lemma Forall2_map_map {T A B : Type} (P : A -> B -> Prop) (f : T -> A) (g : T -> B)
    (l : list T) :
  (forall t, In t l -> P (f t) (g t)) -> Forall2 P (map f l) (map g l).
Proof.
  induction l as [|a l IH]; intro H; cbn; constructor.
  - apply H. now left.
  - apply IH. intros b Hb. apply H. now right.
Qed.

(** ** The edge index list *)

(** C2.  The pipeline returns one record per event that passed the filter,
    in order; for the event with [k] surviving jets the edge index pairs are
    exactly the ordered pairs of distinct positions below [k] in row-major
    order, there are [k * (k - 1)] of them in each of the two rows of the
    tensor, and none joins a position to itself. *)
Theorem edge_index_all_ordered_pairs (L : VectorLib) (events : list Event) :
  exists recs,
    build_data_list L events = Some recs /\
    Forall2
      (fun pt_i d =>
         let k := length pt_i in
         let pairs := combine (fst (edge_index d)) (snd (edge_index d)) in
         pairs = filter (fun p => negb (fst p =? snd p)) (list_prod (seq 0 k) (seq 0 k)) /\
         length (fst (edge_index d)) = (k * (k - 1))%nat /\
         length (snd (edge_index d)) = (k * (k - 1))%nat /\
         (forall i j, In (i, j) pairs <-> (i < k)%nat /\ (j < k)%nat /\ i <> j) /\
         Forall (fun p => fst p <> snd p) pairs)
      (a_pt (jets (event_filter events))) recs.
Proof.
  exists (map (graph_of L) (retained events)). split.
  - apply build_data_list_events.
  - rewrite event_filter_jets; cbn [a_pt]. unfold column.
    apply Forall2_map_map. intros ev _. cbv zeta.
    rewrite length_map. unfold graph_of; cbn [edge_index].
    rewrite combine_split_id.
    set (k := length (surviving_slots ev)).
    split; [reflexivity | split; [| split; [| split]]].
    + rewrite length_fst_split. apply length_edges.
    + rewrite length_snd_split. apply length_edges.
    + intros i j. apply edges_In.
    + apply Forall_forall. intros [i j] Hij. apply edges_In in Hij. cbn. tauto.
Qed.

(** ** Edge labels *)

Lemma edge_match_of_one (p : Momentum4D * Momentum4D) :
  edge_match_of p = 1%Z
  <-> (0 < higgs_idx (fst p))%Z /\ higgs_idx (fst p) = higgs_idx (snd p).
Proof.
  unfold edge_match_of.
  destruct (Z.ltb_spec 0 (higgs_idx (fst p))),
    (Z.eqb_spec (higgs_idx (fst p)) (higgs_idx (snd p))); cbn; intuition lia.
Qed.

Lemma edge_match_of_binary (p : Momentum4D * Momentum4D) :
  edge_match_of p = 1%Z \/ edge_match_of p = 0%Z.
Proof.
  unfold edge_match_of.
  destruct (0 <? higgs_idx (fst p))%Z, (higgs_idx (fst p) =? higgs_idx (snd p))%Z; cbn; auto.
Qed.

Lemma edge_match_of_unmatched (p : Momentum4D * Momentum4D) :
  higgs_idx (fst p) = 0%Z \/ higgs_idx (snd p) = 0%Z -> edge_match_of p = 0%Z.
Proof.
  intro H. destruct (edge_match_of_binary p) as [H1|H0]; [|exact H0].
  apply edge_match_of_one in H1. lia.
Qed.

Lemma edge_match_of_swap (a b : Momentum4D) : edge_match_of (a, b) = edge_match_of (b, a).
Proof.
  unfold edge_match_of; cbn [fst snd].
  destruct (Z.ltb_spec 0 (higgs_idx a)), (Z.ltb_spec 0 (higgs_idx b)),
    (Z.eqb_spec (higgs_idx a) (higgs_idx b)), (Z.eqb_spec (higgs_idx b) (higgs_idx a));
    cbn; congruence || lia.
Qed.

Lemma momentum4d_equal_swap (a b : Momentum4D) : momentum4d_equal a b = momentum4d_equal b a.
Proof.
  unfold momentum4d_equal.
  assert (Hs : forall u v, Qeq_bool u v = Qeq_bool v u).
  { intros u v. apply eq_true_iff_eq. rewrite !Qeq_bool_iff. split; intro; now symmetry. }
  now rewrite (Hs (pt a)), (Hs (phi a)), (Hs (eta a)), (Hs (mass a)).
Qed.

Lemma event_jet_pairs_In (ev : Event) (a b : Momentum4D) :
  In (a, b) (event_jet_pairs ev)
  <-> In a (event_jets ev) /\ In b (event_jets ev) /\ momentum4d_equal a b = false.
Proof.
  unfold event_jet_pairs. rewrite filter_In, in_prod_iff, negb_true_iff. cbn [fst snd]. tauto.
Qed.

(** The label vector of every record is computed entry by entry from the
    jet pairs that line 49 keeps for its event: the label of the pair (a, b)
    is 1 exactly when the match index of a, as rewritten by the filter, is
    positive and equals that of b; every label is 1 or 0, and it is 0 as
    soon as one of the two match indices is 0.  Which edge of the edge index
    list a label stands beside is another matter, taken up with the rows of
    the edge features below. *)
Lemma edge_label_rule (L : VectorLib) (events : list Event) :
  exists recs,
    build_data_list L events = Some recs /\
    Forall2
      (fun jet_pairs d =>
         Forall2
           (fun p label =>
              (label = 1%Z
               <-> (0 < higgs_idx (fst p))%Z /\ higgs_idx (fst p) = higgs_idx (snd p)) /\
              (label = 1%Z \/ label = 0%Z) /\
              (higgs_idx (fst p) = 0%Z \/ higgs_idx (snd p) = 0%Z -> label = 0%Z))
           jet_pairs (y d))
      (filtered_jet_pairs events) recs.
Proof.
  exists (map (graph_of L) (retained events)). split.
  - apply build_data_list_events.
  - rewrite filtered_jet_pairs_events.
    apply Forall2_map_map. intros ev _. unfold graph_of; cbn [y].
    apply Forall2_map_r. intros p _.
    split; [apply edge_match_of_one | split].
    + apply edge_match_of_binary.
    + apply edge_match_of_unmatched.
Qed.

(** The label rule gives both directions of a pair the same label, and the
    pairs of an event that [compute_edge_features] labels contain (b, a)
    whenever they contain (a, b); the label vector of a record is the rule
    applied to these pairs. *)
Lemma edge_label_symmetric (L : VectorLib) (events : list Event) :
  (forall a b, edge_match_of (a, b) = edge_match_of (b, a)) /\
  Forall (fun jet_pairs => forall a b, In (a, b) jet_pairs -> In (b, a) jet_pairs)
    (filtered_jet_pairs events) /\
  exists recs,
    build_data_list L events = Some recs /\
    Forall2 (fun jet_pairs d => y d = map edge_match_of jet_pairs)
      (filtered_jet_pairs events) recs.
Proof.
  split; [exact edge_match_of_swap | split].
  - rewrite filtered_jet_pairs_events. apply Forall_forall.
    intros ps Hps. apply in_map_iff in Hps. destruct Hps as [ev [<- _]].
    intros a b. rewrite !event_jet_pairs_In, (momentum4d_equal_swap b a). tauto.
  - exists (map (graph_of L) (retained events)). split.
    + apply build_data_list_events.
    + rewrite filtered_jet_pairs_events. apply Forall2_map_map. reflexivity.
Qed.

(** ** The event filter *)

(** C4.  After lines 120-127 each of the seven jet columns holds, for every
    event, its values at the same slots, in slot order: the slots 1..N_JETS
    whose pt is strictly above MIN_JET_PT.  A slot whose pt equals MIN_JET_PT
    is not among them. *)
Theorem pt_mask_strict_and_aligned (events : list Event) :
  remove_low_pt_jets (load_jets events)
  = {| a_pt := map (fun ev => map (jetPt ev) (surviving_slots ev)) events;
       a_eta := map (fun ev => map (jetEta ev) (surviving_slots ev)) events;
       a_phi := map (fun ev => map (jetPhi ev) (surviving_slots ev)) events;
       a_btag := map (fun ev => map (jetDeepFlavB ev) (surviving_slots ev)) events;
       a_jet_id := map (fun ev => map (jetJetId ev) (surviving_slots ev)) events;
       a_higgs_idx := map (fun ev => map (jetHiggsMatchedIndex ev) (surviving_slots ev)) events;
       a_hadron_flavor := map (fun ev => map (jetHadronFlavour ev) (surviving_slots ev)) events |}
  /\ (forall ev i,
        In i (surviving_slots ev) <-> (1 <= i <= N_JETS)%nat /\ MIN_JET_PT < jetPt ev i)
  /\ (forall ev i, jetPt ev i == 20 -> ~ In i (surviving_slots ev))
  /\ (forall ev, surviving_slots ev
                 = filter (fun i => Qlt_bool 20 (jetPt ev i)) (seq 1 10)).
Proof.
  split; [apply remove_low_pt_jets_columns | split; [apply surviving_slots_In | split]].
  - intros ev i Heq Hin. apply surviving_slots_In in Hin. destruct Hin as [_ Hlt].
    unfold MIN_JET_PT in Hlt. rewrite Heq in Hlt. now apply Qlt_irrefl in Hlt.
  - reflexivity.
Qed.

(** C5.  The pipeline returns one record per event whose number of surviving
    jets is at least MIN_JETS, in the order of the events, and none for any
    other event; the node matrix of a record has one row per surviving jet,
    so at least MIN_JETS rows; and on the filtered arrays the test of line
    152 is false at every event, so the loop never skips. *)
Theorem records_have_min_jets (L : VectorLib) (events : list Event) :
  exists recs,
    build_data_list L events = Some recs /\
    Forall2
      (fun ev d =>
         length (x d) = length (surviving_slots ev) /\ (MIN_JETS <= length (x d))%nat)
      (filter (fun ev => 6 <=? length (surviving_slots ev)) events) recs /\
    a_pt (jets (event_filter events))
    = map (fun ev => map (jetPt ev) (surviving_slots ev))
        (filter (fun ev => 6 <=? length (surviving_slots ev)) events) /\
    Forall (fun pt_i => (length pt_i <? MIN_JETS) = false) (a_pt (jets (event_filter events))).
Proof.
  exists (map (graph_of L) (retained events)). split; [apply build_data_list_events | split].
  - apply Forall2_map_r. intros ev Hev. unfold graph_of; cbn [x].
    rewrite length_map. split; [reflexivity|].
    now apply retained_In in Hev.
  - rewrite event_filter_jets; cbn [a_pt]. split; [reflexivity|].
    apply Forall_forall. intros pt_i Hin. unfold column in Hin.
    apply in_map_iff in Hin. destruct Hin as [ev [<- Hev]].
    rewrite length_map. apply Nat.ltb_ge. now apply retained_In in Hev.
Qed.

(** C6.  Lines 140 and 142 leave six of the seven columns as they were and
    give every surviving jet of every retained event the match index 0 when
    its original index is at most -1 or its hadron flavour is not 5, and its
    original index otherwise. *)
Theorem match_index_rewritten (events : list Event) :
  let j0 := keep_min_jets_events (remove_low_pt_jets (load_jets events)) in
  let j := rewrite_higgs_idx j0 in
  jets (event_filter events) = j /\
  a_higgs_idx j0
  = map (fun ev => map (jetHiggsMatchedIndex ev) (surviving_slots ev)) (retained events) /\
  a_hadron_flavor j0
  = map (fun ev => map (jetHadronFlavour ev) (surviving_slots ev)) (retained events) /\
  a_higgs_idx j
  = map (fun ev =>
           map (fun i =>
                  if (jetHiggsMatchedIndex ev i <=? -1)%Z
                     || negb (jetHadronFlavour ev i =? 5)%Z
                  then 0%Z
                  else jetHiggsMatchedIndex ev i)
             (surviving_slots ev))
      (retained events) /\
  a_pt j = a_pt j0 /\ a_eta j = a_eta j0 /\ a_phi j = a_phi j0 /\
  a_btag j = a_btag j0 /\ a_jet_id j = a_jet_id j0 /\
  a_hadron_flavor j = a_hadron_flavor j0.
Proof.
  cbv zeta. split; [reflexivity|].
  rewrite keep_min_jets_events_columns.
  unfold rewrite_higgs_idx; cbn [a_pt a_eta a_phi a_btag a_jet_id a_higgs_idx a_hadron_flavor].
  split; [reflexivity | split; [reflexivity | split; [| repeat split]]].
  rewrite rewrite_higgs_idx_column. unfold column.
  apply map_ext; intro ev. apply map_ext; intro i. unfold rewritten_idx.
  destruct (Z.eqb_spec (jetHadronFlavour ev i) 5),
    (Z.ltb_spec (-1) (jetHiggsMatchedIndex ev i)),
    (Z.leb_spec (jetHiggsMatchedIndex ev i) (-1)); cbn; reflexivity || lia.
Qed.

(** ** The parent columns *)

(** C7, as the code has it.  The step that keeps events with MIN_JETS jets
    masks the seven jet columns only.  The three parent columns reach line
    145 as they were loaded: one row of N_HIGGS values per input event,
    whether or not the event was retained, while the jet columns have one
    row per retained event. *)
Theorem parent_columns_not_filtered (events : list Event) :
  higgs_pt (event_filter events) = get_n_features genHiggsPt events N_HIGGS /\
  higgs_eta (event_filter events) = get_n_features genHiggsEta events N_HIGGS /\
  higgs_phi (event_filter events) = get_n_features genHiggsPhi events N_HIGGS /\
  length (higgs_pt (event_filter events)) = length events /\
  Forall (fun row => length row = N_HIGGS) (higgs_pt (event_filter events)) /\
  length (a_pt (jets (event_filter events)))
  = length (filter (fun ev => 6 <=? length (surviving_slots ev)) events).
Proof.
  split; [reflexivity | split; [reflexivity | split; [reflexivity | split; [| split]]]].
  - cbn [event_filter higgs_pt]. unfold get_n_features. apply length_map.
  - cbn [event_filter higgs_pt]. unfold get_n_features.
    apply Forall_forall. intros row Hrow. apply in_map_iff in Hrow.
    destruct Hrow as [ev [<- _]]. now rewrite length_map, length_seq.
  - rewrite event_filter_jets; cbn [a_pt]. unfold column. apply length_map.
Qed.

(** C7, as the claim has it, fails: an event with five jets above MIN_JET_PT
    is dropped from the jet columns and keeps its row in the parent column. *)
Lemma parent_columns_keep_dropped_event :
  length (higgs_pt (event_filter [Examples.ev_five]))
  <> length (a_pt (jets (event_filter [Examples.ev_five]))).
Proof. vm_compute. discriminate. Qed.

(** ** The range of the match index *)

(** C8.  When every matched-Higgs branch of every event holds -1 or a value
    in 1..N_HIGGS, every match index of the filtered arrays lies in
    0..N_HIGGS. *)
Theorem match_index_range (events : list Event) :
  (forall ev, In ev events ->
     forall i, (1 <= i <= N_JETS)%nat ->
       jetHiggsMatchedIndex ev i = (-1)%Z
       \/ (1 <= jetHiggsMatchedIndex ev i <= Z.of_nat N_HIGGS)%Z) ->
  Forall (Forall (fun h => (0 <= h <= Z.of_nat N_HIGGS)%Z))
    (a_higgs_idx (jets (event_filter events))).
Proof.
  intro Hin. rewrite event_filter_jets; cbn [a_higgs_idx]. unfold column.
  apply Forall_forall. intros row Hrow. apply in_map_iff in Hrow.
  destruct Hrow as [ev [<- Hev]]. apply retained_In in Hev. destruct Hev as [Hev _].
  apply Forall_forall. intros h Hh. apply in_map_iff in Hh.
  destruct Hh as [i [<- Hi]]. apply surviving_slots_In in Hi. destruct Hi as [Hi _].
  specialize (Hin ev Hev i Hi). unfold rewritten_idx.
  destruct (jetHadronFlavour ev i =? 5)%Z; [|cbn; lia].
  destruct (Z.ltb_spec (-1) (jetHiggsMatchedIndex ev i)); cbn in *; lia.
Qed.

Lemma match_index_range_witness :
  Forall (Forall (fun h => (0 <= h <= Z.of_nat N_HIGGS)%Z))
    (a_higgs_idx (jets (event_filter [Examples.ev_six; Examples.ev_five]))).
Proof.
  apply (match_index_range [Examples.ev_six; Examples.ev_five]).
  intros ev [<- | [<- | []]] i Hi; unfold N_JETS in Hi;
    assert (Hc : (i = 1 \/ i = 2 \/ i = 3 \/ i = 4 \/ i = 5 \/ i = 6 \/ i = 7 \/ i = 8
                  \/ i = 9 \/ i = 10)%nat) by lia;
    repeat (destruct Hc as [-> | Hc]); try subst i; cbn; lia.
Defined.

(** ** Arguments of the logarithms *)

Lemma event_jets_pt (ev : Event) (a : Momentum4D) :
  In a (event_jets ev) -> MIN_JET_PT < pt a.
Proof.
  unfold event_jets. intro Ha. apply in_map_iff in Ha. destruct Ha as [i [<- Hi]].
  cbn [pt]. now apply surviving_slots_In in Hi.
Qed.

Lemma pair_min_pt_pos (p : Momentum4D * Momentum4D) :
  0 < pt (fst p) -> 0 < pt (snd p) -> 0 < pair_min_pt p.
Proof. intros H0 H1. unfold pair_min_pt. now destruct (Qlt_bool _ _). Qed.

Lemma pair_z_range (p : Momentum4D * Momentum4D) :
  0 < pt (fst p) -> 0 < pt (snd p) ->
  0 < pair_min_pt p / pair_sum_pt p /\ pair_min_pt p / pair_sum_pt p <= 1 # 2.
Proof.
  intros H0 H1.
  assert (Hs : 0 < pair_sum_pt p) by (unfold pair_sum_pt; lra).
  split.
  - apply Qlt_shift_div_l; [exact Hs|]. pose proof (pair_min_pt_pos p H0 H1). lra.
  - apply Qle_shift_div_r; [exact Hs|]. unfold pair_min_pt, pair_sum_pt.
    destruct (Qlt_bool (pt (fst p)) (pt (snd p))) eqn:E.
    + apply Qlt_bool_iff in E. lra.
    + assert (~ pt (fst p) < pt (snd p)) by (rewrite <- Qlt_bool_iff; congruence). lra.
Qed.

(** On binary64 values a pt that passes the mask of line 120 is positive
    (it may be infinite), and so is the smaller of two such pt. *)
Lemma binary64_pt_mask_positive (p : float) :
  Binary64.pt_mask p = true -> (0 <? p)%float = true.
Proof.
  unfold Binary64.pt_mask. rewrite !ltb_spec.
  let v := eval vm_compute in (Prim2SF 20) in change (Prim2SF 20) with v.
  let v := eval vm_compute in (Prim2SF 0) in change (Prim2SF 0) with v.
  destruct (Prim2SF p) as [s | s | | s m e]; try destruct s; cbn; congruence.
Qed.

Lemma binary64_min_pt_positive (p0 p1 : float) :
  Binary64.pt_mask p0 = true -> Binary64.pt_mask p1 = true ->
  (0 <? Binary64.min_pt p0 p1)%float = true.
Proof.
  intros H0 H1. unfold Binary64.min_pt.
  destruct (p0 <? p1)%float; now apply binary64_pt_mask_positive.
Qed.

(** C10, as the claim has it, fails on floats: two jets of pt 2^1023 pass the
    mask of line 120, their sum overflows to infinity and the argument of the
    logarithm of log_z is 0. *)
Lemma log_z_argument_zero_on_overflow :
  ~ (forall p0 p1 : float,
       Binary64.pt_mask p0 = true -> Binary64.pt_mask p1 = true ->
       (0 <? Binary64.log_z_arg p0 p1)%float = true).
Proof.
  intro H. specialize (H 0x1p1023%float 0x1p1023%float eq_refl eq_refl).
  vm_compute in H. discriminate.
Qed.

(** C10, as the code has it.  The arguments of the logarithms of the node
    feature ln(pt) and of the first term of log_kt are positive for every
    jet that passes the pt mask, on binary64 values as well.  The argument of
    the logarithm of log_z, the smaller pt over the sum of the two, lies in
    (0, 1/2] in exact arithmetic: on the filtered arrays, read as rationals,
    every pt is positive, so is the smaller pt of every jet pair, and the
    quotient is in that interval. *)
Theorem pt_log_arguments_positive (L : VectorLib) (events : list Event) :
  let j := jets (event_filter events) in
  let jet_pairs := filtered_jet_pairs events in
  let ef := compute_edge_features L (a_pt j) (a_eta j) (a_phi j) (a_higgs_idx j)
              (higgs_pt (event_filter events)) (higgs_eta (event_filter events))
              (higgs_phi (event_filter events)) in
  (forall p : float, Binary64.pt_mask p = true -> (0 <? p)%float = true) /\
  (forall p0 p1 : float,
     Binary64.pt_mask p0 = true -> Binary64.pt_mask p1 = true ->
     (0 <? Binary64.min_pt p0 p1)%float = true) /\
  Forall (Forall (fun p => 0 < p)) (a_pt j) /\
  Forall (Forall (fun m => 0 < m)) (min_pt_of jet_pairs) /\
  Forall (Forall (fun z => 0 < z /\ z <= 1 # 2))
    (Ak.zip_with2d Qdiv (min_pt_of jet_pairs) (sum_pt_of jet_pairs)) /\
  log_z ef
  = Ak.map2d (np_log L) (Ak.zip_with2d Qdiv (min_pt_of jet_pairs) (sum_pt_of jet_pairs)) /\
  log_kt ef = Ak.zip_with2d Qplus (Ak.map2d (np_log L) (min_pt_of jet_pairs)) (log_delta_r ef) /\
  exists recs,
    build_data_list L events = Some recs /\
    Forall2 (fun pt_i d => map (fun row => nth 0 row 0) (x d) = map (np_log L) pt_i)
      (a_pt j) recs.
Proof.
  cbv zeta.
  assert (Hjets : forall ev a, In a (event_jets ev) -> 0 < pt a).
  { intros ev a Ha. apply event_jets_pt in Ha. unfold MIN_JET_PT in Ha. lra. }
  assert (Hpair : forall ev p, In p (event_jet_pairs ev) -> 0 < pt (fst p) /\ 0 < pt (snd p)).
  { intros ev [a b] Hp. apply event_jet_pairs_In in Hp. cbn [fst snd].
    destruct Hp as [Ha [Hb _]]. split; eapply Hjets; eassumption. }
  split; [exact binary64_pt_mask_positive | split; [exact binary64_min_pt_positive |]].
  split; [| split; [| split; [| split; [reflexivity | split; [reflexivity |]]]]].
  - rewrite event_filter_jets; cbn [a_pt]. unfold column.
    apply Forall_forall. intros row Hrow. apply in_map_iff in Hrow.
    destruct Hrow as [ev [<- _]].
    apply Forall_forall. intros p Hp. apply in_map_iff in Hp. destruct Hp as [i [<- Hi]].
    apply surviving_slots_In in Hi. destruct Hi as [_ Hi]. unfold MIN_JET_PT in Hi. lra.
  - rewrite filtered_jet_pairs_events. unfold min_pt_of. rewrite map2d_rows.
    apply Forall_forall. intros row Hrow. apply in_map_iff in Hrow.
    destruct Hrow as [ev [<- _]].
    apply Forall_forall. intros m Hm. apply in_map_iff in Hm. destruct Hm as [p [<- Hp]].
    destruct (Hpair ev p Hp). now apply pair_min_pt_pos.
  - rewrite filtered_jet_pairs_events. unfold min_pt_of, sum_pt_of.
    rewrite !map2d_rows, (zip_with2d_rows Qdiv pair_min_pt pair_sum_pt).
    apply Forall_forall. intros row Hrow. apply in_map_iff in Hrow.
    destruct Hrow as [ev [<- _]].
    apply Forall_forall. intros z Hz. apply in_map_iff in Hz. destruct Hz as [p [<- Hp]].
    destruct (Hpair ev p Hp). now apply pair_z_range.
  - exists (map (graph_of L) (retained events)). split; [apply build_data_list_events|].
    rewrite event_filter_jets; cbn [a_pt]. unfold column.
    apply Forall2_map_map. intros ev _. unfold graph_of; cbn [x].
    rewrite !map_map. reflexivity.
Qed.

(** ** Rows of the edge features against the edge index list *)

(** C3 at an event with two jets of the same pt, eta and phi (positions 1
    and 4 of six).  The edge index list has its 30 pairs; the edge feature
    matrix and the label vector have 28 rows, the two pairs of the twins
    having gone with the self pairs on line 49.  From position 8 on, a row
    no longer belongs to the edge at its position: position 9 of the edge
    index list is the edge (1, 5), whose jets are matched to Higgs 1 and
    Higgs 3, and position 9 of the label vector is 1, the label of the pair
    (2, 0). *)
Theorem twin_jets_misalign_rows (L : VectorLib) :
  exists d,
    build_data_list L [Examples.ev_twins] = Some [d] /\
    length (x d) = 6%nat /\
    length (fst (edge_index d)) = 30%nat /\
    length (snd (edge_index d)) = 30%nat /\
    length (edge_attr d) = 28%nat /\
    length (y d) = 28%nat /\
    nth_error (combine (fst (edge_index d)) (snd (edge_index d))) 9 = Some (1%nat, 5%nat) /\
    a_higgs_idx (jets (event_filter [Examples.ev_twins])) = [[2; 1; 2; 3; 1; 3]%Z] /\
    nth_error (y d) 9 = Some 1%Z.
Proof.
  exists (graph_of L Examples.ev_twins). split.
  - rewrite build_data_list_events. reflexivity.
  - vm_compute. repeat split.
Qed.

Lemma momentum4d_equal_refl (a : Momentum4D) : momentum4d_equal a a = true.
Proof.
  unfold momentum4d_equal.
  assert (Hr : forall u, Qeq_bool u u = true) by (intro u; apply Qeq_bool_iff; reflexivity).
  now rewrite !Hr.
Qed.

Lemma list_prod_map {A B C D : Type} (f : A -> C) (g : B -> D) (l : list A) (l' : list B) :
  list_prod (map f l) (map g l') = map (fun p => (f (fst p), g (snd p))) (list_prod l l').
Proof.
  induction l as [|a l IH]; [reflexivity|].
  cbn [map list_prod]. rewrite map_app, IH, !map_map. reflexivity.
Qed.

Lemma filter_map_comm {A B : Type} (f : B -> bool) (g : A -> B) (l : list A) :
  filter f (map g l) = map g (filter (fun a => f (g a)) l).
Proof.
  induction l as [|a l IH]; [reflexivity|].
  cbn [map filter]. destruct (f (g a)); cbn [map]; now rewrite IH.
Qed.

Lemma map_nth_positions {A : Type} (d : A) (l : list A) :
  map (fun i => nth i l d) (seq 0 (length l)) = l.
Proof.
  induction l as [|a l IH]; [reflexivity|].
  cbn [length seq map nth]. f_equal.
  rewrite <- seq_shift, map_map. exact IH.
Qed.

Lemma pairs_follow_edges (js : list Momentum4D) :
  distinct_kinematics js ->
  filter (fun p => negb (momentum4d_equal (fst p) (snd p))) (list_prod js js)
  = map (jets_at js) (edges (length js)).
Proof.
  intro Hd.
  rewrite <- (map_nth_positions no_jet js) at 1 2.
  rewrite list_prod_map, filter_map_comm. unfold edges, jets_at.
  f_equal. apply filter_ext_in. intros [i j] Hij. cbn [fst snd].
  apply in_prod_iff in Hij. rewrite !in_seq in Hij. destruct Hij as [Hi Hj].
  destruct (Nat.eqb_spec i j) as [->|Hne].
  - now rewrite momentum4d_equal_refl.
  - rewrite (Hd i j (nth i js no_jet) (nth j js no_jet)); auto;
      apply nth_error_nth'; lia.
Qed.

(** C1 at the same event.  The two jets of edge 9, (1, 5), have match
    indices 1 and 3, and the label stored at position 9 is 1; the two jets of
    edge 8, (1, 4), both have match index 1, and the label stored at
    position 8 is 0.  The rule of line 71 is applied to the pairs kept on
    line 49, which from position 8 on are not the pairs of the edge index
    list. *)
Theorem twin_jets_mislabel_edges (L : VectorLib) :
  exists d idx,
    build_data_list L [Examples.ev_twins] = Some [d] /\
    a_higgs_idx (jets (event_filter [Examples.ev_twins])) = [idx] /\
    nth_error (combine (fst (edge_index d)) (snd (edge_index d))) 9 = Some (1%nat, 5%nat) /\
    nth_error idx 1 = Some 1%Z /\ nth_error idx 5 = Some 3%Z /\
    nth_error (y d) 9 = Some 1%Z /\
    nth_error (combine (fst (edge_index d)) (snd (edge_index d))) 8 = Some (1%nat, 4%nat) /\
    nth_error idx 4 = Some 1%Z /\
    nth_error (y d) 8 = Some 0%Z.
Proof.
  exists (graph_of L Examples.ev_twins), [2; 1; 2; 3; 1; 3]%Z. split.
  - rewrite build_data_list_events. reflexivity.
  - vm_compute. repeat split.
Qed.

(** C9 at the same event.  The edges (0, 2) and (2, 0) stand at positions 1
    and 10 of the edge index list and join two jets of match index 2; the
    labels stored at these positions are 1 and 0.  The edges (1, 4) and
    (4, 1), at positions 8 and 21, join the two jets of match index 1, and
    both stored labels are 0. *)
Theorem twin_jets_asymmetric_labels (L : VectorLib) :
  exists d idx,
    build_data_list L [Examples.ev_twins] = Some [d] /\
    a_higgs_idx (jets (event_filter [Examples.ev_twins])) = [idx] /\
    nth_error idx 0 = Some 2%Z /\ nth_error idx 2 = Some 2%Z /\
    nth_error (combine (fst (edge_index d)) (snd (edge_index d))) 1 = Some (0%nat, 2%nat) /\
    nth_error (combine (fst (edge_index d)) (snd (edge_index d))) 10 = Some (2%nat, 0%nat) /\
    nth_error (y d) 1 = Some 1%Z /\
    nth_error (y d) 10 = Some 0%Z /\
    nth_error idx 1 = Some 1%Z /\ nth_error idx 4 = Some 1%Z /\
    nth_error (combine (fst (edge_index d)) (snd (edge_index d))) 8 = Some (1%nat, 4%nat) /\
    nth_error (combine (fst (edge_index d)) (snd (edge_index d))) 21 = Some (4%nat, 1%nat) /\
    nth_error (y d) 8 = Some 0%Z /\
    nth_error (y d) 21 = Some 0%Z.
Proof.
  exists (graph_of L Examples.ev_twins), [2; 1; 2; 3; 1; 3]%Z. split.
  - rewrite build_data_list_events. reflexivity.
  - vm_compute. repeat split.
Qed.

(** Without twins the two self-loop masks agree.  When no two jets at
    different positions of an event compare equal, the pairs kept on line 49
    are the jets at the positions of the edge index list, in its order, so
    the rows of the edge features and the labels follow the edge index
    list. *)
Theorem rows_follow_edge_index_without_twins (L : VectorLib) (events : list Event) :
  let j := jets (event_filter events) in
  exists recs,
    build_data_list L events = Some recs /\
    Forall2
      (fun js d =>
         distinct_kinematics js ->
         let pairs := combine (fst (edge_index d)) (snd (edge_index d)) in
         y d = map (fun e => edge_match_of (jets_at js e)) pairs /\
         edge_attr d = map (fun e => edge_row L (jets_at js e)) pairs /\
         length (edge_attr d) = length pairs)
      (zip_jets (a_pt j) (a_eta j) (a_phi j) (Ak.zeros_like (a_pt j)) (a_higgs_idx j)) recs.
Proof.
  cbv zeta. exists (map (graph_of L) (retained events)). split.
  - apply build_data_list_events.
  - rewrite event_filter_jets; cbn [a_pt a_eta a_phi a_higgs_idx].
    rewrite zip_jets_columns. apply Forall2_map_map. intros ev _ Hd.
    unfold graph_of; cbn [y edge_attr edge_index]. rewrite combine_split_id.
    unfold event_jet_pairs. rewrite (pairs_follow_edges Hd).
    replace (length (event_jets ev)) with (length (surviving_slots ev))
      by (unfold event_jets; now rewrite length_map).
    rewrite !map_map, !length_map. auto.
Qed.

(** ** [process] up to line 177 *)

(** No index or stacking error arises before line 177, and [collate]
    receives the graphs of the retained events, filtered and transformed by
    the hooks that were given. *)
Lemma process_reaches_collate (L : VectorLib) (S : Type) (collate : list Data -> option S)
    (pre_filter : option (Data -> bool)) (pre_transform : option (Data -> Data))
    (events : list Event) :
  process L collate pre_filter pre_transform events
  = collate
      (match pre_transform with Some t => map t | None => fun l => l end
         (match pre_filter with Some keep => filter keep | None => fun l => l end
            (map (graph_of L) (retained events)))).
Proof.
  unfold process. rewrite build_data_list_events. cbn [bind].
  destruct pre_filter, pre_transform; reflexivity.
Qed.

(** ** The pipeline on the concrete events *)

(** Ten slots of which four are not above MIN_JET_PT: six jets survive, the
    record has 30 edges with one feature row and one label each, and the
    only edges labelled 1 are the two between the jets matched to Higgs 2
    with flavour 5 (positions 0 and 3).  The jet matched to Higgs 1 with
    flavour 4 has match index 0 and labels no edge. *)
Example six_of_ten_slots (L : VectorLib) :
  exists d,
    build_data_list L [Examples.ev_six] = Some [d] /\
    surviving_slots Examples.ev_six = [1; 2; 4; 5; 6; 7]%nat /\
    a_higgs_idx (jets (event_filter [Examples.ev_six])) = [[2; 0; 0; 2; 0; 3]%Z] /\
    length (x d) = 6%nat /\
    length (fst (edge_index d)) = 30%nat /\
    length (edge_attr d) = 30%nat /\
    Forall (fun row => length row = 7%nat) (edge_attr d) /\
    Forall (fun row => length row = 5%nat) (x d) /\
    y d = map (fun e => if ((fst e =? 0) && (snd e =? 3)) || ((fst e =? 3) && (snd e =? 0))
                        then 1%Z else 0%Z)
            (combine (fst (edge_index d)) (snd (edge_index d))).
Proof.
  exists (graph_of L Examples.ev_six). split.
  - rewrite build_data_list_events. reflexivity.
  - vm_compute. repeat split; repeat constructor.
Qed.

(** Five jets above MIN_JET_PT: the event gives no record, alone or between
    two events that do. *)
Example five_jets_no_record (L : VectorLib) :
  build_data_list L [Examples.ev_five] = Some [] /\
  build_data_list L [Examples.ev_six; Examples.ev_five; Examples.ev_twins]
  = Some [graph_of L Examples.ev_six; graph_of L Examples.ev_twins].
Proof.
  split; rewrite build_data_list_events; reflexivity.
Qed.

(** The jets of [ev_six] have pairwise different kinematics, those of
    [ev_twins] have not. *)
Example ev_six_distinct : distinct_kinematics (event_jets Examples.ev_six).
Proof.
  intros m n a b Hm Hn Hne.
  assert (Hlen : length (event_jets Examples.ev_six) = 6%nat) by reflexivity.
  assert (Hm' : (m < 6)%nat) by (rewrite <- Hlen; apply nth_error_Some; congruence).
  assert (Hn' : (n < 6)%nat) by (rewrite <- Hlen; apply nth_error_Some; congruence).
  destruct m as [|[|[|[|[|[|m]]]]]]; try lia; destruct n as [|[|[|[|[|[|n]]]]]]; try lia;
    cbn in Hm, Hn; injection Hm as <-; injection Hn as <-; reflexivity.
Qed.

Example ev_twins_not_distinct : ~ distinct_kinematics (event_jets Examples.ev_twins).
Proof.
  intro Hd.
  assert (H14 : 1%nat <> 4%nat) by discriminate.
  specialize (Hd 1%nat 4%nat _ _ eq_refl eq_refl H14).
  vm_compute in Hd. discriminate.
Qed.

(** * Further properties of the code *)

(** ** [get_edge_index] on any jagged array *)

Lemma NoDup_map_pair {A B : Type} (a : A) (l : list B) :
  NoDup l -> NoDup (map (fun b => (a, b)) l).
Proof.
  induction 1 as [|b l Hb _ IH]; cbn; constructor; [|exact IH].
  intro Hin. apply in_map_iff in Hin. destruct Hin as [b' [Heq Hb']].
  injection Heq as ->. contradiction.
Qed.

Lemma NoDup_list_prod_seq {A B : Type} (l : list A) (l' : list B) :
  NoDup l -> NoDup l' -> NoDup (list_prod l l').
Proof.
  intros Hl Hl'. induction Hl as [|a l Ha _ IH]; cbn; [constructor|].
  apply NoDup_app; [now apply NoDup_map_pair | exact IH |].
  intros [a' b'] Hin1 Hin2. apply in_map_iff in Hin1. destruct Hin1 as [b [Heq _]].
  injection Heq as <- <-. apply in_prod_iff in Hin2. tauto.
Qed.

Lemma NoDup_edges (k : nat) : NoDup (edges k).
Proof.
  unfold edges. apply NoDup_filter. apply NoDup_list_prod_seq; apply seq_NoDup.
Qed.

(** X1.  The edge lists depend on the number of entries of each event only,
    not on the entries: two jagged arrays of one shape, of any two element
    types, get the same edge lists.  Line 144 relies on it when it passes
    [zeros_like(pt)]. *)
Theorem get_edge_index_shape_only {A B : Type} (a : list (list A)) (b : list (list B)) :
  Ak.num a = Ak.num b -> get_edge_index a = get_edge_index b.
Proof.
  intro Hnum. rewrite !get_edge_index_rows.
  change (map (fun row : list A => edges (length row)) a)
    with (map (fun row : list A => edges ((@length A) row)) a).
  rewrite <- (map_map (@length A) edges a), <- (map_map (@length B) edges b).
  unfold Ak.num in Hnum. now rewrite Hnum.
Qed.

Lemma get_edge_index_shape_only_witness :
  get_edge_index [[1%Z; 2%Z; 3%Z]; []; [4%Z]] = get_edge_index [[true; false; true]; []; [false]].
Proof.
  apply (get_edge_index_shape_only [[1%Z; 2%Z; 3%Z]; []; [4%Z]]
           [[true; false; true]; []; [false]]).
  reflexivity.
Defined.

(** X2.  For any jagged array [get_edge_index] returns one edge list per
    event.  The list of an event has no repeated pair, holds (j, i) whenever
    it holds (i, j), and is empty for an event of no entry or of one. *)
Theorem get_edge_index_both_directions {A : Type} (arr : list (list A)) :
  length (get_edge_index arr) = length arr /\
  Forall2
    (fun row es =>
       NoDup es /\
       (forall i j, In (i, j) es -> In (j, i) es) /\
       ((length row <= 1)%nat -> es = []))
    arr (get_edge_index arr).
Proof.
  rewrite get_edge_index_rows. split; [apply length_map|].
  apply Forall2_map_r. intros row _. split; [apply NoDup_edges | split].
  - intros i j. rewrite !edges_In. intuition auto.
  - intro Hk. destruct (edges (length row)) as [|[i j] es] eqn:E; [reflexivity|].
    assert (Hin : In (i, j) (edges (length row))) by (rewrite E; now left).
    apply edges_In in Hin. lia.
Qed.

(** ** The position of an edge *)

Lemma filter_all_true {A : Type} (f : A -> bool) (l : list A) :
  Forall (fun a => f a = true) l -> filter f l = l.
Proof.
  induction 1 as [|a l Ha _ IH]; cbn; [reflexivity|]. now rewrite Ha, IH.
Qed.

Lemma filter_neq_seq (i k : nat) :
  (i < k)%nat ->
  filter (fun j => negb (i =? j)) (seq 0 k) = seq 0 i ++ seq (S i) (k - S i).
Proof.
  intro Hi.
  replace k with (i + (1 + (k - S i)))%nat at 1 by lia.
  rewrite seq_app. cbn [Nat.add seq]. rewrite filter_app. cbn [filter].
  rewrite Nat.eqb_refl. cbn [negb]. f_equal; apply filter_all_true.
  - apply Forall_forall. intros j Hj. apply in_seq in Hj.
    apply negb_true_iff, Nat.eqb_neq. lia.
  - apply Forall_forall. intros j Hj. apply in_seq in Hj.
    apply negb_true_iff, Nat.eqb_neq. lia.
Qed.

Lemma filter_prod_flat_map (k : nat) (l : list nat) :
  filter (fun p => negb (fst p =? snd p)) (list_prod l (seq 0 k))
  = flat_map (fun i => map (fun j => (i, j)) (filter (fun j => negb (i =? j)) (seq 0 k))) l.
Proof.
  induction l as [|i l IH]; [reflexivity|].
  cbn [list_prod flat_map]. rewrite filter_app, IH.
  now rewrite (filter_map_comm (fun p => negb (fst p =? snd p)) (fun j => (i, j))).
Qed.

Lemma nth_error_flat_map_seq {A : Type} (f : nat -> list A) (len : nat) :
  forall n s i r,
    (forall m, (s <= m < s + n)%nat -> length (f m) = len) ->
    (i < n)%nat -> (r < len)%nat ->
    nth_error (flat_map f (seq s n)) (i * len + r) = nth_error (f (s + i)%nat) r.
Proof.
  induction n as [|n IH]; intros s i r Hlen Hi Hr; [lia|].
  cbn [seq flat_map]. destruct i as [|i].
  - cbn [Nat.mul Nat.add]. rewrite Nat.add_0_r.
    apply nth_error_app1. rewrite Hlen; lia.
  - rewrite nth_error_app2 by (rewrite Hlen; lia || nia).
    rewrite Hlen by lia.
    replace (S i * len + r - len)%nat with (i * len + r)%nat by nia.
    rewrite IH; [| intros m Hm; apply Hlen; lia | lia | lia].
    f_equal. f_equal. lia.
Qed.

(** X3.  In the edge list of an event of [k] entries the edge (i, j)
    stands at position [i * (k - 1) + j] when [j < i], and one position
    earlier than that when [j > i]. *)
Theorem edge_position {A : Type} (row : list A) (i j : nat) :
  (i < length row)%nat -> (j < length row)%nat -> i <> j ->
  exists es,
    get_edge_index [row] = [es] /\
    nth_error es (i * (length row - 1) + (if j <? i then j else j - 1)) = Some (i, j).
Proof.
  intros Hi Hj Hne. exists (edges (length row)). split.
  - rewrite get_edge_index_rows. reflexivity.
  - set (k := length row) in *. unfold edges.
    rewrite filter_prod_flat_map.
    rewrite (@nth_error_flat_map_seq _ _ (k - 1));
      [| | lia | destruct (Nat.ltb_spec j i); lia].
    + cbn [Nat.add]. rewrite filter_neq_seq by lia.
      apply map_nth_error.
      destruct (Nat.ltb_spec j i) as [Hlt|Hge].
      * rewrite nth_error_app1 by (rewrite length_seq; lia).
        rewrite (nth_error_nth' _ 0%nat) by (rewrite length_seq; lia).
        now rewrite seq_nth by lia.
      * rewrite nth_error_app2 by (rewrite length_seq; lia).
        rewrite length_seq.
        rewrite (nth_error_nth' _ 0%nat) by (rewrite length_seq; lia).
        rewrite seq_nth by lia. f_equal. lia.
    + intros m Hm. rewrite length_map, length_filter_neq_seq.
      replace (0 <=? m) with true by (symmetry; apply Nat.leb_le; lia).
      replace (m <? 0 + k) with true by (symmetry; apply Nat.ltb_lt; lia).
      reflexivity.
Qed.

Lemma edge_position_witness :
  exists es,
    get_edge_index [[10%Z; 11%Z; 12%Z; 13%Z; 14%Z; 15%Z]] = [es] /\
    nth_error es (4 * (length [10%Z; 11%Z; 12%Z; 13%Z; 14%Z; 15%Z] - 1)
                  + (if 1 <? 4 then 1 else 1 - 1)) = Some (4%nat, 1%nat).
Proof.
  apply (edge_position [10%Z; 11%Z; 12%Z; 13%Z; 14%Z; 15%Z] (i := 4) (j := 1));
    cbn; [lia | lia | discriminate].
Defined.

(** ** What the records depend on *)

Lemma surviving_slots_ext (e e' : Event) :
  same_jet_branches e e' -> surviving_slots e = surviving_slots e'.
Proof.
  intro H. unfold surviving_slots. apply filter_ext_in. intros i Hi.
  apply in_seq in Hi.
  assert (Hr : (1 <= i <= N_JETS)%nat) by (unfold N_JETS in *; lia).
  destruct (H i Hr) as [-> _]. reflexivity.
Qed.

Lemma graph_of_ext (L : VectorLib) (e e' : Event) :
  same_jet_branches e e' -> graph_of L e = graph_of L e'.
Proof.
  intro H.
  assert (Hjets : event_jets e = event_jets e').
  { unfold event_jets. rewrite <- (surviving_slots_ext H).
    apply map_ext_in. intros i Hi. apply surviving_slots_In in Hi. destruct Hi as [Hi _].
    unfold rewritten_idx. destruct (H i Hi) as (-> & -> & -> & _ & _ & -> & ->). reflexivity. }
  unfold graph_of, event_jet_pairs. rewrite Hjets, <- (surviving_slots_ext H). f_equal.
  apply map_ext_in. intros i Hi. apply surviving_slots_In in Hi. destruct Hi as [Hi _].
  unfold node_row. destruct (H i Hi) as (-> & -> & -> & -> & -> & _). reflexivity.
Qed.

(** X4.  The records depend on the seven jet branch templates at the slots
    1..N_JETS and on nothing else: two lists of events that agree there,
    event by event, give the same result, whatever their generated Higgs
    bosons are. *)
Theorem records_depend_on_jet_branches_only (L : VectorLib) (events events' : list Event) :
  Forall2 same_jet_branches events events' ->
  build_data_list L events = build_data_list L events'.
Proof.
  intro H. rewrite !build_data_list_events. f_equal.
  induction H as [|e e' es es' He _ IH]; [reflexivity|].
  unfold retained in *. cbn [filter].
  rewrite <- (surviving_slots_ext He).
  destruct (MIN_JETS <=? length (surviving_slots e)); [|exact IH].
  cbn [map]. now rewrite IH, (graph_of_ext L He).
Qed.

Lemma records_depend_on_jet_branches_only_witness :
  build_data_list Examples.toy_lib [Examples.ev_six; Examples.ev_five]
  = build_data_list Examples.toy_lib
      [Examples.with_parents Examples.ev_six (fun i => 250) (fun i => 1) (fun i => -1);
       Examples.with_parents Examples.ev_five (fun i => 7) (fun i => 0) (fun i => 3)].
Proof.
  apply records_depend_on_jet_branches_only.
  repeat constructor.
Defined.

(** ** The outputs of [compute_edge_features] *)

Lemma num_map2d {A B : Type} (f : A -> B) (arr : list (list A)) :
  Ak.num (Ak.map2d f arr) = Ak.num arr.
Proof.
  unfold Ak.num, Ak.map2d. rewrite map_map. apply map_ext; intro row. apply length_map.
Qed.

Lemma length_zip_with {A B C : Type} (f : A -> B -> C) (xs : list A) (ys : list B) :
  length xs = length ys -> length (Ak.zip_with f xs ys) = length xs.
Proof.
  intro H. unfold Ak.zip_with. rewrite length_map, length_combine, <- H. apply Nat.min_id.
Qed.

Lemma num_zip_with2d {A B C : Type} (f : A -> B -> C) (xs : list (list A)) (ys : list (list B)) :
  Ak.num xs = Ak.num ys -> Ak.num (Ak.zip_with2d f xs ys) = Ak.num xs.
Proof.
  unfold Ak.num, Ak.zip_with2d, Ak.zip_with. revert ys.
  induction xs as [|row xs IH]; intros [|row' ys] H; try discriminate; [reflexivity|].
  cbn in *. injection H as Hrow Hrest. f_equal.
  - now apply length_zip_with.
  - now apply IH.
Qed.

(** X5.  For any input arrays, of matching shapes or not, the seven feature
    arrays and the target array that [compute_edge_features] returns have
    one shape: each has, for every event, one entry per jet pair kept on
    line 49. *)
Theorem edge_feature_arrays_one_shape (L : VectorLib) (pt eta phi : list (list Q))
    (higgs_idx : list (list Z)) (higgs_pt higgs_eta higgs_phi : list (list Q)) :
  let ef := compute_edge_features L pt eta phi higgs_idx higgs_pt higgs_eta higgs_phi in
  let shape := Ak.num (jet_pairs_of (zip_jets pt eta phi (Ak.zeros_like pt) higgs_idx)) in
  Ak.num (log_delta_r ef) = shape /\ Ak.num (log_mass2 ef) = shape /\
  Ak.num (log_kt ef) = shape /\ Ak.num (log_z ef) = shape /\
  Ak.num (log_pt_jj ef) = shape /\ Ak.num (eta_jj ef) = shape /\
  Ak.num (phi_jj ef) = shape /\ Ak.num (edge_match ef) = shape.
Proof.
  cbv zeta. unfold compute_edge_features.
  cbn [log_delta_r log_mass2 log_kt log_z log_pt_jj eta_jj phi_jj edge_match].
  unfold min_pt_of, sum_pt_of.
  repeat split; rewrite ?num_map2d; try reflexivity.
  - rewrite num_zip_with2d; rewrite !num_map2d; reflexivity.
  - rewrite num_zip_with2d; rewrite !num_map2d; reflexivity.
Qed.

(** ** Labels and match indices *)

(** X6.  Being labelled 1 is transitive: when the pairs (a, b) and (b, c)
    have label 1, so has the pair (a, c). *)
Theorem edge_match_transitive (a b c : Momentum4D) :
  edge_match_of (a, b) = 1%Z -> edge_match_of (b, c) = 1%Z -> edge_match_of (a, c) = 1%Z.
Proof.
  rewrite !edge_match_of_one. cbn [fst snd]. intros [Ha Hab] [_ Hbc].
  split; [exact Ha | congruence].
Qed.

Lemma edge_match_transitive_witness :
  edge_match_of (Examples.jet_a, Examples.jet_c) = 1%Z.
Proof.
  apply (@edge_match_transitive Examples.jet_a Examples.jet_b Examples.jet_c); reflexivity.
Defined.

(** X7.  Whatever the input holds, after the filter no match index is
    negative, and a jet whose hadron flavour is not 5 has match index 0: a
    positive match index is always the input index of a jet of flavour 5. *)
Theorem match_index_nonnegative (events : list Event) :
  let j := jets (event_filter events) in
  Forall2
    (Forall2 (fun h flavour => (0 <= h)%Z /\ (flavour <> 5%Z -> h = 0%Z)))
    (a_higgs_idx j) (a_hadron_flavor j) /\
  a_higgs_idx j
  = Ak.zip_with2d (fun h0 h => if (0 <? h)%Z then h0 else 0%Z)
      (a_higgs_idx (keep_min_jets_events (remove_low_pt_jets (load_jets events))))
      (a_higgs_idx j).
Proof.
  cbv zeta. rewrite event_filter_jets, keep_min_jets_events_columns.
  cbn [a_higgs_idx a_hadron_flavor]. unfold column. split.
  - apply Forall2_map_map. intros ev _. apply Forall2_map_map. intros i _.
    unfold rewritten_idx.
    destruct (Z.eqb_spec (jetHadronFlavour ev i) 5),
      (Z.ltb_spec (-1) (jetHiggsMatchedIndex ev i)); split; intros; lia || congruence.
  - rewrite zip_with2d_map_map. apply map_ext; intro ev. apply map_ext; intro i.
    unfold rewritten_idx.
    destruct (jetHadronFlavour ev i =? 5)%Z; [|reflexivity].
    destruct (Z.ltb_spec (-1) (jetHiggsMatchedIndex ev i)) as [H|H]; [|reflexivity].
    destruct (Z.ltb_spec 0 (jetHiggsMatchedIndex ev i)); [reflexivity | lia].
Qed.

(** ** The shape of a record *)

Lemma fst_split_map {A B : Type} (l : list (A * B)) : fst (List.split l) = map fst l.
Proof.
  induction l as [|[a b] l IH]; [reflexivity|].
  cbn [List.split map fst]. destruct (List.split l). cbn in *. now rewrite IH.
Qed.

Lemma snd_split_map {A B : Type} (l : list (A * B)) : snd (List.split l) = map snd l.
Proof.
  induction l as [|[a b] l IH]; [reflexivity|].
  cbn [List.split map snd]. destruct (List.split l). cbn in *. now rewrite IH.
Qed.

Lemma length_surviving_slots (ev : Event) : (length (surviving_slots ev) <= N_JETS)%nat.
Proof.
  unfold surviving_slots.
  eapply Nat.le_trans; [apply filter_length_le | now rewrite length_seq].
Qed.

(** X8.  Every record has between MIN_JETS and N_JETS nodes, each with five
    features, and between 30 and 90 directed edges; both ends of every edge
    are rows of the node matrix. *)
Theorem record_nodes_and_edges (L : VectorLib) (events : list Event) :
  exists recs,
    build_data_list L events = Some recs /\
    Forall
      (fun d =>
         (MIN_JETS <= length (x d) <= N_JETS)%nat /\
         Forall (fun row => length row = 5%nat) (x d) /\
         (30 <= length (fst (edge_index d)) <= 90)%nat /\
         length (snd (edge_index d)) = length (fst (edge_index d)) /\
         Forall (fun i => (i < length (x d))%nat) (fst (edge_index d)) /\
         Forall (fun i => (i < length (x d))%nat) (snd (edge_index d)))
      recs.
Proof.
  exists (map (graph_of L) (retained events)). split; [apply build_data_list_events|].
  apply Forall_forall. intros d Hd. apply in_map_iff in Hd. destruct Hd as [ev [<- Hev]].
  apply retained_In in Hev. destruct Hev as [_ Hmin].
  pose proof (length_surviving_slots ev) as Hmax.
  unfold graph_of; cbn [x edge_index]. rewrite length_map.
  set (k := length (surviving_slots ev)) in *.
  rewrite length_fst_split, length_snd_split, length_edges, fst_split_map, snd_split_map.
  unfold MIN_JETS, N_JETS in *. clearbody k.
  assert (Hedges : (30 <= k * (k - 1) <= 90)%nat).
  { assert (Hk : (k = 6 \/ k = 7 \/ k = 8 \/ k = 9 \/ k = 10)%nat) by lia.
    destruct Hk as [-> | [-> | [-> | [-> | ->]]]]; cbn; lia. }
  split; [lia | split; [| split; [exact Hedges | split; [reflexivity | split]]]].
  - apply Forall_forall. intros row Hrow. apply in_map_iff in Hrow.
    destruct Hrow as [i [<- _]]. reflexivity.
  - apply Forall_forall. intros i Hi. apply in_map_iff in Hi.
    destruct Hi as [[a b] [<- Hab]]. apply edges_In in Hab. cbn. lia.
  - apply Forall_forall. intros i Hi. apply in_map_iff in Hi.
    destruct Hi as [[a b] [<- Hab]]. apply edges_In in Hab. cbn. lia.
Qed.

Lemma length_filter_le_impl {A : Type} (f g : A -> bool) (l : list A) :
  (forall a, In a l -> f a = true -> g a = true) ->
  (length (filter f l) <= length (filter g l))%nat.
Proof.
  induction l as [|a l IH]; intro H; [reflexivity|].
  cbn [filter]. assert (IH' := IH (fun b Hb => H b (or_intror Hb))).
  destruct (f a) eqn:Ef.
  - rewrite (H a (or_introl eq_refl) Ef). cbn. lia.
  - destruct (g a); cbn; lia.
Qed.

Lemma self_equal_at (js : list Momentum4D) (i : nat) :
  self_equal js -> (i < length js)%nat ->
  momentum4d_equal (nth i js no_jet) (nth i js no_jet) = true.
Proof.
  intros Hself Hi. unfold self_equal in Hself. rewrite Forall_forall in Hself.
  apply Hself. now apply nth_In.
Qed.

Lemma length_event_jet_pairs (ev : Event) :
  self_equal (event_jets ev) ->
  (length (event_jet_pairs ev) <= length (edges (length (surviving_slots ev))))%nat.
Proof.
  intro Hself. unfold event_jet_pairs, edges.
  replace (length (surviving_slots ev)) with (length (event_jets ev))
    by (unfold event_jets; apply length_map).
  set (js := event_jets ev) in *.
  rewrite <- (map_nth_positions no_jet js) at 1 2.
  rewrite list_prod_map, filter_map_comm, length_map.
  apply length_filter_le_impl. intros [i j] Hin. cbn [fst snd].
  apply in_prod_iff in Hin. rewrite !in_seq in Hin. destruct Hin as [Hi _].
  destruct (Nat.eqb_spec i j) as [<-|]; [|reflexivity].
  rewrite (@self_equal_at js i Hself); [discriminate | lia].
Qed.

(** X9.  When every jet of the filtered arrays compares equal to itself (no
    coordinate is not-a-number), then in every record the edge feature
    matrix and the label vector have the same number of rows, every feature
    row has seven entries, and there are no more rows than edges in the edge
    index list. *)
Theorem edge_rows_against_edge_index (L : VectorLib) (events : list Event) :
  let j := jets (event_filter events) in
  Forall self_equal
    (zip_jets (a_pt j) (a_eta j) (a_phi j) (Ak.zeros_like (a_pt j)) (a_higgs_idx j)) ->
  exists recs,
    build_data_list L events = Some recs /\
    Forall
      (fun d =>
         length (edge_attr d) = length (y d) /\
         Forall (fun row => length row = 7%nat) (edge_attr d) /\
         (length (y d) <= length (fst (edge_index d)))%nat)
      recs.
Proof.
  cbv zeta. rewrite event_filter_jets; cbn [a_pt a_eta a_phi a_higgs_idx].
  rewrite zip_jets_columns. intro Hself. rewrite Forall_forall in Hself.
  exists (map (graph_of L) (retained events)). split; [apply build_data_list_events|].
  apply Forall_forall. intros d Hd. apply in_map_iff in Hd. destruct Hd as [ev [<- Hev]].
  unfold graph_of; cbn [edge_attr y edge_index].
  rewrite !length_map, length_fst_split. split; [reflexivity | split].
  - apply Forall_forall. intros row Hrow. apply in_map_iff in Hrow.
    destruct Hrow as [p [<- _]]. reflexivity.
  - apply length_event_jet_pairs. apply Hself. now apply in_map.
Qed.

Lemma edge_rows_against_edge_index_witness :
  exists recs,
    build_data_list Examples.toy_lib [Examples.ev_six; Examples.ev_five; Examples.ev_twins]
    = Some recs /\
    Forall
      (fun d =>
         length (edge_attr d) = length (y d) /\
         Forall (fun row => length row = 7%nat) (edge_attr d) /\
         (length (y d) <= length (fst (edge_index d)))%nat)
      recs.
Proof.
  apply (edge_rows_against_edge_index Examples.toy_lib
           [Examples.ev_six; Examples.ev_five; Examples.ev_twins]).
  vm_compute. repeat constructor.
Defined.

(** ** The order of the events *)

Lemma retained_app (evs1 evs2 : list Event) :
  retained (evs1 ++ evs2) = retained evs1 ++ retained evs2.
Proof. unfold retained. apply filter_app. Qed.

(** X11.  Events are processed independently and in order: the records of a
    list of events followed by another are the records of the first
    followed by the records of the second. *)
Theorem build_data_list_app (L : VectorLib) (evs1 evs2 : list Event) :
  exists recs1 recs2,
    build_data_list L evs1 = Some recs1 /\
    build_data_list L evs2 = Some recs2 /\
    build_data_list L (evs1 ++ evs2) = Some (recs1 ++ recs2).
Proof.
  exists (map (graph_of L) (retained evs1)), (map (graph_of L) (retained evs2)).
  rewrite !build_data_list_events, retained_app, map_app. auto.
Qed.

(** ** The event mask and the test of line 152 *)

Lemma event_loop_rechecks (L : VectorLib) (evs pre suf : list Event) (data_list : list Data) :
  evs = pre ++ suf ->
  event_loop L (jets_of_events evs)
    (map (fun ev => edges (length (surviving_slots ev))) evs)
    (edge_features_of_events L evs) (seq (length pre) (length suf)) data_list
  = Some (data_list ++ map (graph_of L) (retained suf)).
Proof.
  revert pre data_list.
  induction suf as [|ev suf IH]; intros pre data_list Hevs.
  - cbn. now rewrite app_nil_r.
  - assert (Hi : nth_error evs (length pre) = Some ev).
    { rewrite Hevs, nth_error_app2, Nat.sub_diag by lia. reflexivity. }
    assert (Hrest : evs = (pre ++ [ev]) ++ suf) by (rewrite Hevs, <- app_assoc; reflexivity).
    specialize (IH (pre ++ [ev])). rewrite length_app in IH. cbn [length] in IH.
    replace (length pre + 1)%nat with (S (length pre)) in IH by lia.
    cbn [length seq event_loop].
    unfold jets_of_events at 1, column at 1. cbn [a_pt].
    rewrite (getitem_map _ evs (length pre) Hi). cbn [bind].
    rewrite length_map. unfold retained. cbn [filter]. fold (retained suf).
    destruct (Nat.ltb_spec (length (surviving_slots ev)) MIN_JETS) as [Hlt|Hge].
    + replace (MIN_JETS <=? length (surviving_slots ev)) with false
        by (symmetry; apply Nat.leb_gt; exact Hlt).
      now apply IH.
    + replace (MIN_JETS <=? length (surviving_slots ev)) with true
        by (symmetry; apply Nat.leb_le; exact Hge).
      rewrite (build_data_event L evs (length pre) Hi). cbn [bind].
      rewrite (IH _ Hrest), <- app_assoc. reflexivity.
Qed.

(** X12.  The test of line 152 does the work of the event mask: the loop run
    on the arrays that skipped lines 130-137 (jets removed by pt, match
    indices rewritten, all events kept) returns the records of the full
    pipeline. *)
Theorem loop_recheck_replaces_event_mask (L : VectorLib) (events : list Event) :
  let j := rewrite_higgs_idx (remove_low_pt_jets (load_jets events)) in
  let edge_indices := get_edge_index (Ak.zeros_like (a_pt j)) in
  let ef := compute_edge_features L (a_pt j) (a_eta j) (a_phi j) (a_higgs_idx j)
              (get_n_features genHiggsPt events N_HIGGS)
              (get_n_features genHiggsEta events N_HIGGS)
              (get_n_features genHiggsPhi events N_HIGGS) in
  length (a_pt j) = length events /\
  event_loop L j edge_indices ef (seq 0 (length (a_pt j))) [] = build_data_list L events.
Proof.
  cbv zeta. rewrite remove_low_pt_jets_columns.
  unfold rewrite_higgs_idx; cbn [a_pt a_eta a_phi a_btag a_jet_id a_higgs_idx a_hadron_flavor].
  rewrite rewrite_higgs_idx_column.
  rewrite get_edge_index_column, compute_edge_features_columns.
  replace (length (column jetPt surviving_slots events)) with (length events)
    by (unfold column; now rewrite length_map).
  split; [reflexivity|].
  rewrite build_data_list_events.
  apply (@event_loop_rechecks L events [] events [] eq_refl).
Qed.

(** ** The order of the filter steps *)

Lemma rewrite_columns (fh ff : Event -> nat -> Z) (s : Event -> list nat) events :
  require_b_flavor (column ff s events) (switch_unmatched (column fh s events))
  = column (fun ev i =>
              if (ff ev i =? 5)%Z then (if (-1 <? fh ev i)%Z then fh ev i else 0%Z) else 0%Z)
      s events.
Proof.
  unfold require_b_flavor, switch_unmatched, Ak.where_scalar, column.
  rewrite !map2d_map_map, !zip_with2d_map_map. reflexivity.
Qed.

Lemma masks_on_columns (fe fp fb : Event -> nat -> Q) (fj fh ff : Event -> nat -> Z) events :
  keep_min_jets_events
    (remove_low_pt_jets
       {| a_pt := column jetPt (fun _ => seq 1 N_JETS) events;
          a_eta := column fe (fun _ => seq 1 N_JETS) events;
          a_phi := column fp (fun _ => seq 1 N_JETS) events;
          a_btag := column fb (fun _ => seq 1 N_JETS) events;
          a_jet_id := column fj (fun _ => seq 1 N_JETS) events;
          a_higgs_idx := column fh (fun _ => seq 1 N_JETS) events;
          a_hadron_flavor := column ff (fun _ => seq 1 N_JETS) events |})
  = {| a_pt := column jetPt surviving_slots (retained events);
       a_eta := column fe surviving_slots (retained events);
       a_phi := column fp surviving_slots (retained events);
       a_btag := column fb surviving_slots (retained events);
       a_jet_id := column fj surviving_slots (retained events);
       a_higgs_idx := column fh surviving_slots (retained events);
       a_hadron_flavor := column ff surviving_slots (retained events) |}.
Proof.
  unfold keep_min_jets_events, remove_low_pt_jets;
    cbn [a_pt a_eta a_phi a_btag a_jet_id a_higgs_idx a_hadron_flavor].
  rewrite jet_pt_mask_column, !mask2_column, min_jets_mask_column, !mask1_column.
  reflexivity.
Qed.

(** X13.  Rewriting the match indices commutes with the two masks: done on
    the arrays as loaded, before any jet or event is removed, it leads to
    the same filtered arrays as done last. *)
Theorem rewrite_commutes_with_masks (events : list Event) :
  keep_min_jets_events (remove_low_pt_jets (rewrite_higgs_idx (load_jets events)))
  = rewrite_higgs_idx (keep_min_jets_events (remove_low_pt_jets (load_jets events))).
Proof.
  change (rewrite_higgs_idx (keep_min_jets_events (remove_low_pt_jets (load_jets events))))
    with (jets (event_filter events)).
  rewrite event_filter_jets.
  unfold rewrite_higgs_idx at 1, load_jets;
    cbn [a_pt a_eta a_phi a_btag a_jet_id a_higgs_idx a_hadron_flavor].
  rewrite !get_n_features_column, rewrite_columns.
  apply masks_on_columns.
Qed.

(** X14.  Filtering is idempotent: the three steps applied to arrays that
    are already filtered return them unchanged. *)
Theorem event_filter_idempotent (events : list Event) :
  let j := jets (event_filter events) in
  rewrite_higgs_idx (keep_min_jets_events (remove_low_pt_jets j)) = j.
Proof.
  cbv zeta. rewrite event_filter_jets.
  set (evs := retained events).
  assert (Hslots : forall ev,
            filter (fun i => Qlt_bool MIN_JET_PT (jetPt ev i)) (surviving_slots ev)
            = surviving_slots ev).
  { intro ev. apply filter_all_true. apply Forall_forall. intros i Hi.
    unfold surviving_slots in Hi. now apply filter_In in Hi. }
  assert (Hcol : forall (A : Type) (name : Event -> nat -> A),
            Ak.getitem_mask2 (column name surviving_slots evs)
              (column (fun ev i => Qlt_bool MIN_JET_PT (jetPt ev i)) surviving_slots evs)
            = column name surviving_slots evs).
  { intros A name. unfold column. rewrite getitem_mask2_map_map.
    apply map_ext; intro ev. now rewrite Hslots. }
  assert (Hevs : forall (A : Type) (name : Event -> nat -> A),
            Ak.getitem_mask1 (column name surviving_slots evs)
              (map (fun ev => MIN_JETS <=? length (surviving_slots ev)) evs)
            = column name surviving_slots evs).
  { intros A name. unfold column. rewrite getitem_mask1_map_map. f_equal.
    apply filter_all_true. apply Forall_forall. intros ev Hev.
    apply Nat.leb_le. unfold evs in Hev. now apply retained_In in Hev. }
  unfold remove_low_pt_jets; cbn [a_pt a_eta a_phi a_btag a_jet_id a_higgs_idx a_hadron_flavor].
  replace (jet_pt_mask (column jetPt surviving_slots evs))
    with (column (fun ev i => Qlt_bool MIN_JET_PT (jetPt ev i)) surviving_slots evs)
    by (unfold jet_pt_mask, column; now rewrite map2d_map_map).
  rewrite !Hcol.
  unfold keep_min_jets_events;
    cbn [a_pt a_eta a_phi a_btag a_jet_id a_higgs_idx a_hadron_flavor].
  rewrite min_jets_mask_column, !Hevs.
  unfold rewrite_higgs_idx; cbn [a_pt a_eta a_phi a_btag a_jet_id a_higgs_idx a_hadron_flavor].
  rewrite rewrite_columns. f_equal.
  unfold column. apply map_ext; intro ev. apply map_ext; intro i. unfold rewritten_idx.
  destruct (jetHadronFlavour ev i =? 5)%Z; [|reflexivity].
  destruct (Z.ltb_spec (-1) (jetHiggsMatchedIndex ev i)) as [H|H]; [|reflexivity].
  now rewrite (proj2 (Z.ltb_lt _ _) H).
Qed.

(** ** The helpers of the edge features *)

(** X15.  [min_pt] of a pair is the smaller of the two pt: it is one of
    them and exceeds neither; it and [sum_pt], hence their quotient, have
    the same value for the pair (a, b) and the pair (b, a). *)
Theorem pair_min_pt_is_minimum (a b : Momentum4D) :
  pair_min_pt (a, b) <= pt a /\
  pair_min_pt (a, b) <= pt b /\
  (pair_min_pt (a, b) = pt a \/ pair_min_pt (a, b) = pt b) /\
  pair_min_pt (a, b) == pair_min_pt (b, a) /\
  pair_sum_pt (a, b) == pair_sum_pt (b, a) /\
  pair_min_pt (a, b) / pair_sum_pt (a, b) == pair_min_pt (b, a) / pair_sum_pt (b, a).
Proof.
  assert (Hmin : pair_min_pt (a, b) == pair_min_pt (b, a)).
  { unfold pair_min_pt; cbn [fst snd].
    destruct (Qlt_bool (pt a) (pt b)) eqn:Eab, (Qlt_bool (pt b) (pt a)) eqn:Eba.
    - apply Qlt_bool_iff in Eab, Eba. lra.
    - reflexivity.
    - reflexivity.
    - assert (~ pt a < pt b) by (rewrite <- Qlt_bool_iff; congruence).
      assert (~ pt b < pt a) by (rewrite <- Qlt_bool_iff; congruence). lra. }
  assert (Hsum : pair_sum_pt (a, b) == pair_sum_pt (b, a)).
  { unfold pair_sum_pt; cbn [fst snd]. lra. }
  unfold pair_min_pt at 1 2 3 4; cbn [fst snd].
  destruct (Qlt_bool (pt a) (pt b)) eqn:Eab.
  - apply Qlt_bool_iff in Eab.
    repeat split; try lra; auto. now rewrite Hmin, Hsum.
  - assert (~ pt a < pt b) by (rewrite <- Qlt_bool_iff; congruence).
    repeat split; try lra; auto. now rewrite Hmin, Hsum.
Qed.

(** ** Checking a record for alignment *)

Lemma filter_eq_of_length {A : Type} (f g : A -> bool) (l : list A) :
  (forall a, In a l -> f a = true -> g a = true) ->
  length (filter f l) = length (filter g l) ->
  filter f l = filter g l.
Proof.
  induction l as [|a l IH]; intros Himp Hlen; [reflexivity|].
  assert (Himp' : forall b, In b l -> f b = true -> g b = true)
    by (intros b Hb; apply Himp; now right).
  pose proof (length_filter_le_impl f g l Himp') as Hle.
  cbn [filter] in *. destruct (f a) eqn:Ef.
  - rewrite (Himp a (or_introl eq_refl) Ef) in *. cbn in Hlen.
    f_equal. apply IH; [exact Himp' | lia].
  - destruct (g a); cbn in Hlen; [lia|]. now apply IH.
Qed.

Lemma jet_pairs_by_position (js : list Momentum4D) :
  filter (fun p => negb (momentum4d_equal (fst p) (snd p))) (list_prod js js)
  = map (jets_at js)
      (filter (fun e => negb (momentum4d_equal (fst (jets_at js e)) (snd (jets_at js e))))
         (list_prod (seq 0 (length js)) (seq 0 (length js)))).
Proof.
  rewrite <- (map_nth_positions no_jet js) at 1 2.
  rewrite list_prod_map, filter_map_comm. reflexivity.
Qed.

(** X16.  When every jet of the filtered arrays compares equal to itself (no
    coordinate is not-a-number), a record whose label vector has as many
    entries as its edge index list has edges is aligned: row r of the labels
    and of the edge features is computed from the two jets at the positions
    that entry r of the edge index list names. *)
Theorem full_length_record_is_aligned (L : VectorLib) (events : list Event) :
  let j := jets (event_filter events) in
  Forall self_equal
    (zip_jets (a_pt j) (a_eta j) (a_phi j) (Ak.zeros_like (a_pt j)) (a_higgs_idx j)) ->
  exists recs,
    build_data_list L events = Some recs /\
    Forall2
      (fun js d =>
         length (y d) = length (fst (edge_index d)) ->
         let pairs := combine (fst (edge_index d)) (snd (edge_index d)) in
         y d = map (fun e => edge_match_of (jets_at js e)) pairs /\
         edge_attr d = map (fun e => edge_row L (jets_at js e)) pairs)
      (zip_jets (a_pt j) (a_eta j) (a_phi j) (Ak.zeros_like (a_pt j)) (a_higgs_idx j)) recs.
Proof.
  cbv zeta. rewrite event_filter_jets; cbn [a_pt a_eta a_phi a_higgs_idx].
  rewrite zip_jets_columns. intro Hself. rewrite Forall_forall in Hself.
  exists (map (graph_of L) (retained events)). split.
  - apply build_data_list_events.
  - apply Forall2_map_map. intros ev Hev.
    assert (Hjs : self_equal (event_jets ev)) by (apply Hself; now apply in_map).
    unfold graph_of; cbn [y edge_attr edge_index].
    rewrite combine_split_id, length_map, length_fst_split.
    replace (length (surviving_slots ev)) with (length (event_jets ev))
      by (unfold event_jets; apply length_map).
    unfold event_jet_pairs. rewrite jet_pairs_by_position, length_map.
    unfold edges. intro Hlen.
    rewrite (filter_eq_of_length _ (fun p => negb (fst p =? snd p)) _); [| | exact Hlen].
    + rewrite !map_map. split; reflexivity.
    + intros [i k] Hin. unfold jets_at. cbn [fst snd].
      apply in_prod_iff in Hin. rewrite !in_seq in Hin. destruct Hin as [Hi _].
      destruct (Nat.eqb_spec i k) as [<-|]; [|reflexivity].
      rewrite (@self_equal_at (event_jets ev) i Hjs); [discriminate | lia].
Qed.

Lemma full_length_record_is_aligned_witness :
  exists recs,
    build_data_list Examples.toy_lib [Examples.ev_six; Examples.ev_twins] = Some recs /\
    Forall2
      (fun js d =>
         length (y d) = length (fst (edge_index d)) ->
         y d = map (fun e => edge_match_of (jets_at js e))
                 (combine (fst (edge_index d)) (snd (edge_index d))) /\
         edge_attr d = map (fun e => edge_row Examples.toy_lib (jets_at js e))
                         (combine (fst (edge_index d)) (snd (edge_index d))))
      [event_jets Examples.ev_six; event_jets Examples.ev_twins] recs.
Proof.
  apply (full_length_record_is_aligned Examples.toy_lib [Examples.ev_six; Examples.ev_twins]).
  vm_compute. repeat constructor.
Defined.
